(** * Session protocol of the waveform experiment GUIs

    A shallow embedding of the control core of [amplitude_gui.py],
    [hypoglossal_gui.py] and [testgui.py]: the widget store driven by
    [configure_item] / [set_value] / [get_value], the [Interface] singleton,
    the callbacks bound to the buttons, the result file written at the end
    of a session and the serial listener [monitor_serial].

    Python statements are written in a small state-and-exception monad over
    a [World]: a callback either returns, or raises with the world as it was
    when the exception left the callback. *)

From Stdlib Require Import ZArith NArith Ascii String List Bool Lia.
From Stdlib Require Import PrimFloat SpecFloat FloatOps FloatAxioms Uint63.
From stdpp Require Import base tactics option list gmap strings pretty.

Set Warnings "-inexact-float".
Set Default Proof Using "Type".

Open Scope string_scope.
Open Scope Z_scope.

(** ** Python values and exceptions *)

(** The exceptions the modelled statements can raise. *)
Inductive exn : Type :=
| IndexError
| AttributeError
| UnicodeDecodeError
| ValueError
| SerialException.

(** A statement either completes with a result or raises; in both cases the
    world reached so far is kept (Python mutates in place). *)
Inductive outcome (S A : Type) : Type :=
| Done (a : A) (s : S)
| Raised (e : exn) (s : S).
Arguments Done {S A} a s.
Arguments Raised {S A} e s.

Definition final {S A} (o : outcome S A) : S :=
  match o with Done _ s => s | Raised _ s => s end.

Definition returned {S A} (o : outcome S A) : bool :=
  match o with Done _ _ => true | Raised _ _ => false end.

(** Values that meet in a Python [==]: a [str], a [bytes] object or an [int].
    Objects of different types never compare equal. *)
Inductive pyval : Type :=
| PStr (s : string)
| PBytes (b : string)
| PInt (z : Z).

Definition py_eq (a b : pyval) : bool :=
  match a, b with
  | PStr x, PStr y => String.eqb x y
  | PBytes x, PBytes y => String.eqb x y
  | PInt x, PInt y => Z.eqb x y
  | _, _ => false
  end.

(** ** The result file *)

(** One field of a written line, as the f-string interpolates it. *)
Inductive field : Type :=
| FText (s : string)
| FInt (z : Z)
| FFloat (f : float).

(** A line of the result file: its fields, separated by [", "] in the file.
    The empty list is the blank line that a doubled newline leaves. *)
Definition line : Type := list field.

(** The files of the working directory, by name.  Every name can be opened
    for writing. *)
Abbreviation FS := (gmap string (list line)).

(** ** The widget store *)

Record Gui : Type := mkGui {
  enabled : string -> bool;      (* [enabled=] of every item *)
  text : string -> string;       (* value of text inputs, labels and 1.x radio buttons *)
  int_in : string -> Z;          (* value of [add_input_int] items and 0.x radio buttons *)
  color : string -> list Z;      (* [color=] of the status labels *)
}.

Definition upd {A} (k : string) (v : A) (f : string -> A) : string -> A :=
  fun k' => if String.eqb k k' then v else f k'.

Definition gui_enable (k : string) (b : bool) (g : Gui) : Gui :=
  mkGui (upd k b (enabled g)) (text g) (int_in g) (color g).
Definition gui_text (k : string) (s : string) (g : Gui) : Gui :=
  mkGui (enabled g) (upd k s (text g)) (int_in g) (color g).
Definition gui_int (k : string) (z : Z) (g : Gui) : Gui :=
  mkGui (enabled g) (text g) (upd k z (int_in g)) (color g).
Definition gui_color (k : string) (c : list Z) (g : Gui) : Gui :=
  mkGui (enabled g) (text g) (int_in g) (upd k c (color g)).

(** What reaches the device over the serial link. *)
Inductive dev_cmd : Type :=
| DConnect
| DSend (waveform : string) (amplitude frequency : Z)
| DStart
| DStop.

(** ** The world a callback runs in *)

Record World (I : Type) : Type := mkWorld {
  iface : I;                 (* the module-level [interface] object *)
  gui : Gui;                 (* the dearpygui items *)
  fs : FS;                   (* the working directory *)
  device_up : bool;          (* whether the serial link answers *)
  dev_log : list dev_cmd;    (* what was sent to the device, latest first *)
  stdout : list string;      (* what [print] wrote, latest first *)
  rng : nat -> nat;          (* the draws numpy's global generator will give *)
}.
Arguments mkWorld {I}.
Arguments iface {I}.
Arguments gui {I}.
Arguments fs {I}.
Arguments device_up {I}.
Arguments dev_log {I}.
Arguments stdout {I}.
Arguments rng {I}.

Definition with_iface {I} (i : I) (w : World I) : World I :=
  mkWorld i (gui w) (fs w) (device_up w) (dev_log w) (stdout w) (rng w).
Definition with_gui {I} (g : Gui) (w : World I) : World I :=
  mkWorld (iface w) g (fs w) (device_up w) (dev_log w) (stdout w) (rng w).
Definition with_fs {I} (f : FS) (w : World I) : World I :=
  mkWorld (iface w) (gui w) f (device_up w) (dev_log w) (stdout w) (rng w).
Definition with_device_up {I} (b : bool) (w : World I) : World I :=
  mkWorld (iface w) (gui w) (fs w) b (dev_log w) (stdout w) (rng w).
Definition with_dev_log {I} (l : list dev_cmd) (w : World I) : World I :=
  mkWorld (iface w) (gui w) (fs w) (device_up w) l (stdout w) (rng w).
Definition with_stdout {I} (l : list string) (w : World I) : World I :=
  mkWorld (iface w) (gui w) (fs w) (device_up w) (dev_log w) l (rng w).
Definition with_rng {I} (r : nat -> nat) (w : World I) : World I :=
  mkWorld (iface w) (gui w) (fs w) (device_up w) (dev_log w) (stdout w) r.

(** ** Statements *)

Definition M (I A : Type) : Type := World I -> outcome (World I) A.

#[global] Instance M_ret {I} : MRet (M I) := fun A a w => Done a w.
#[global] Instance M_bind {I} : MBind (M I) := fun A B k c w =>
  match c w with
  | Done a w' => k a w'
  | Raised e w' => Raised e w'
  end.
Definition raise {I A} (e : exn) : M I A := fun w => Raised e w.
Definition skip {I} : M I unit := mret tt.

Definition get_iface {I} : M I I := fun w => Done (iface w) w.
Definition modify_iface {I} (f : I -> I) : M I unit :=
  fun w => Done tt (with_iface (f (iface w)) w).

(** [configure_item(tag, enabled=b)] *)
Definition configure_item {I} (tag : string) (b : bool) : M I unit :=
  fun w => Done tt (with_gui (gui_enable tag b (gui w)) w).
(** [configure_item(tag, color=c)] *)
Definition configure_color {I} (tag : string) (c : list Z) : M I unit :=
  fun w => Done tt (with_gui (gui_color tag c (gui w)) w).
(** [set_value(tag, s)] on a label *)
Definition set_value {I} (tag : string) (s : string) : M I unit :=
  fun w => Done tt (with_gui (gui_text tag s (gui w)) w).
(** [get_value(tag)] on a text item and on an integer item *)
Definition get_text {I} (tag : string) : M I string :=
  fun w => Done (text (gui w) tag) w.
Definition get_int {I} (tag : string) : M I Z :=
  fun w => Done (int_in (gui w) tag) w.

Definition print {I} (s : string) : M I unit :=
  fun w => Done tt (with_stdout (s :: stdout w) w).

(** [os.path.exists(name)] *)
Definition path_exists {I} (name : string) : M I bool :=
  fun w => Done (bool_decide (is_Some (fs w !! name))) w.
(** [open(name, 'w')]: the file is created or truncated.  The working
    directory is taken to be writable and [name] to be a name that can be
    created in it; an [open] that fails is not modelled. *)
Definition open_w {I} (name : string) : M I unit :=
  fun w => Done tt (with_fs (<[name := []]> (fs w)) w).
(** [file.write] of one line to the file opened under [name]. *)
Definition write_line {I} (name : string) (l : line) : M I unit :=
  fun w => Done tt (with_fs (<[name := (default [] (fs w !! name) ++ [l])%list]> (fs w)) w).

(** A call into the device driver: it raises when the link is down. *)
Definition device_call {I} (c : dev_cmd) : M I unit :=
  fun w => if device_up w then Done tt (with_dev_log (c :: dev_log w) w)
           else Raised SerialException w.

(** [time.sleep(seconds)] takes time only, but refuses a negative length. *)
Definition sleep {I} (seconds : Z) : M I unit :=
  if seconds <? 0 then raise ValueError else skip.

(** A click reaches its callback only while the button is enabled. *)
Definition click {I} (tag : string) (callback : M I unit) : M I unit :=
  fun w => if enabled (gui w) tag then callback w else Done tt w.
(** The operator can edit an input only while it is enabled. *)
Definition type_text {I} (tag : string) (s : string) : M I unit :=
  fun w => if enabled (gui w) tag then Done tt (with_gui (gui_text tag s (gui w)) w)
           else Done tt w.
Definition type_int {I} (tag : string) (z : Z) : M I unit :=
  fun w => if enabled (gui w) tag then Done tt (with_gui (gui_int tag z (gui w)) w)
           else Done tt w.

(** Status colours. *)
Definition green : list Z := [0; 255; 0].
Definition red : list Z := [255; 0; 0].

(** ** Python built-ins used by the callbacks *)

(** [l[i]] for a Python list or numpy array and a non-negative index. *)
Definition index {I A} (l : list A) (i : nat) : M I A :=
  match l !! i with
  | Some x => mret x
  | None => raise IndexError
  end.

(** [l[i]] for a signed index: a negative one counts from the end. *)
Definition index_Z {I A} (l : list A) (i : Z) : M I A :=
  if 0 <=? i then index l (Z.to_nat i)
  else if - i <=? Z.of_nat (length l) then index l (Z.to_nat (Z.of_nat (length l) + i))
  else raise IndexError.

(** A Python [str] is kept as its UTF-8 encoding, so [bytes.decode("utf-8")]
    is the identity on well-formed input and raises on anything else.  The
    well-formed sequences are those of RFC 3629. *)
Definition byte_in (lo hi : N) (c : ascii) : bool :=
  let b := N_of_ascii c in ((lo <=? b) && (b <=? hi))%N.
Definition cont (c : ascii) : bool := byte_in 128 191 c.

Fixpoint utf8_valid (s : string) : bool :=
  match s with
  | EmptyString => true
  | String c r =>
      if byte_in 0 127 c then utf8_valid r
      else match r with
      | EmptyString => false
      | String c1 r1 =>
          if byte_in 194 223 c then cont c1 && utf8_valid r1
          else match r1 with
          | EmptyString => false
          | String c2 r2 =>
              if byte_in 224 224 c then byte_in 160 191 c1 && cont c2 && utf8_valid r2
              else if byte_in 225 236 c then cont c1 && cont c2 && utf8_valid r2
              else if byte_in 237 237 c then byte_in 128 159 c1 && cont c2 && utf8_valid r2
              else if byte_in 238 239 c then cont c1 && cont c2 && utf8_valid r2
              else match r2 with
              | EmptyString => false
              | String c3 r3 =>
                  if byte_in 240 240 c
                  then byte_in 144 191 c1 && cont c2 && cont c3 && utf8_valid r3
                  else if byte_in 241 243 c
                  then cont c1 && cont c2 && cont c3 && utf8_valid r3
                  else if byte_in 244 244 c
                  then byte_in 128 143 c1 && cont c2 && cont c3 && utf8_valid r3
                  else false
              end
          end
      end
  end.

Definition decode_utf8 {I} (b : string) : M I string :=
  if utf8_valid b then mret b else raise UnicodeDecodeError.

(** [s.strip(chars)] for a set of characters given as a predicate. *)
Fixpoint lstrip (p : ascii -> bool) (s : string) : string :=
  match s with
  | EmptyString => EmptyString
  | String c r => if p c then lstrip p r else s
  end.
Fixpoint rstrip (p : ascii -> bool) (s : string) : string :=
  match s with
  | EmptyString => EmptyString
  | String c r =>
      match rstrip p r with
      | EmptyString => if p c then EmptyString else String c EmptyString
      | r' => String c r'
      end
  end.
Definition strip (p : ascii -> bool) (s : string) : string := rstrip p (lstrip p s).

Definition is_nul (c : ascii) : bool := (N_of_ascii c =? 0)%N.

(** [needle in hay] on strings. *)
Fixpoint contains (needle hay : string) : bool :=
  String.prefix needle hay ||
  match hay with
  | EmptyString => false
  | String _ r => contains needle r
  end.

(** [int(s)] on a [str] of ASCII characters: surrounding white space
    (the bytes 9 to 13 and 32), an optional sign, then decimal digits, where
    single underscores may stand between digits.  [None] is [ValueError].
    This is [int] on ASCII strings only: CPython also accepts the decimal
    digits and the spaces of other scripts, and its recent versions refuse
    more than 4300 digits; neither is modelled, so a statement below
    about [int_of_str] describes [int] on ASCII lines of at most 4300
    bytes. *)
Definition is_space (c : ascii) : bool :=
  byte_in 9 13 c || byte_in 32 32 c.
Definition is_digit (c : ascii) : bool := byte_in 48 57 c.
Definition digit_val (c : ascii) : Z := Z.of_N (N_of_ascii c) - 48.

Fixpoint parse_digits (acc : Z) (after_digit : bool) (s : string) : option Z :=
  match s with
  | EmptyString => if after_digit then Some acc else None
  | String c r =>
      if is_digit c then parse_digits (10 * acc + digit_val c) true r
      else if Ascii.eqb c "_" && after_digit then
        match r with
        | String c' _ => if is_digit c' then parse_digits acc false r else None
        | EmptyString => None
        end
      else None
  end.

Definition int_of_str (s : string) : option Z :=
  match strip is_space s with
  | String "+" r => parse_digits 0 false r
  | String "-" r => Z.opp <$> parse_digits 0 false r
  | t => parse_digits 0 false t
  end.

(** ** Floating point *)

(** An [int] operand of a float product is first converted to binary64. *)
Definition float_of_Z (z : Z) : float :=
  if z <? 0 then PrimFloat.opp (of_uint63 (Uint63.of_Z (- z)))
  else of_uint63 (Uint63.of_Z z).

(** The integer part of a finite binary64, rounded towards zero and
    rounded down.  Both are [None] on an infinity or a NaN. *)
Definition sf_magnitude (m : positive) (e : Z) : Z :=
  match e with
  | Z0 => Z.pos m
  | Zpos p => Z.pos m * 2 ^ Z.pos p
  | Zneg p => Z.pos m / 2 ^ Z.pos p
  end.

Definition sf_trunc (x : spec_float) : option Z :=
  match x with
  | S754_zero _ => Some 0
  | S754_finite s m e => Some (if s then - sf_magnitude m e else sf_magnitude m e)
  | _ => None
  end.

Definition sf_floor (x : spec_float) : option Z :=
  match x with
  | S754_zero _ => Some 0
  | S754_finite s m e =>
      Some (match e with
            | Zneg p => (if s then Z.neg m else Z.pos m) / 2 ^ Z.pos p
            | _ => if s then - sf_magnitude m e else sf_magnitude m e
            end)
  | _ => None
  end.

(** [int(x)] on a float: truncation.  The products formed here (a 32-bit
    amplitude times a multiplier below one) are finite; the value chosen for
    an infinity or a NaN, where Python raises, is never used. *)
Definition int_of_float (x : float) : Z := default 0 (sf_trunc (Prim2SF x)).
Definition floor_of_float (x : float) : Z := default 0 (sf_floor (Prim2SF x)).

(** ** numpy's in-place shuffle *)

Definition swap (i j : nat) (l : list nat) : list nat :=
  match l !! i, l !! j with
  | Some a, Some b => <[i := b]> (<[j := a]> l)
  | _, _ => l
  end.

(** Modelled from the spec: [numpy.random.shuffle] is a library routine whose
    code is not part of the repository; the spec names it a Fisher-Yates
    shuffle.  For [i] from the last position down to 1, position [i] is
    exchanged with a position drawn from [0..i]; [draw] supplies the draws. *)
Fixpoint fisher_yates (i : nat) (draw : nat -> nat) (l : list nat) : list nat :=
  match i with
  | O => l
  | S i' => fisher_yates i' draw (swap i (draw i mod (S i)) l)
  end.

Definition shuffle (draw : nat -> nat) (l : list nat) : list nat :=
  fisher_yates (length l - 1) draw l.

(** [np.random.shuffle(x)] consumes one draw per exchanged position of the
    process-wide generator. *)
Definition np_random_shuffle {I} (l : list nat) : M I (list nat) :=
  fun w => Done (shuffle (rng w) l)
                (with_rng (fun k => rng w (k + length l)%nat) w).

(** * [amplitude_gui.py]: free amplitude / measurement pairs *)

Module Amplitude.

Record Interface : Type := mkInterface {
  connected : bool;
  inputCheck : bool;
  ready : bool;
  amplitudes : list Z;
  measures : list Z;
  num_measures : nat;
  current_amplitude : Z;
  greeting : string;             (* bytes *)
  on : string;                   (* bytes *)
  off : string;                  (* bytes *)
  (* attributes that exist only once [parseInputs] has assigned them *)
  participantID : option string;
  sessionID : option string;
  sex : option Z;
  age : option Z;
  filename : option string;
}.

(** [Interface.__init__] *)
Definition Interface_init : Interface :=
  {| connected := false; inputCheck := false; ready := false;
     amplitudes := []; measures := []; num_measures := 0;
     current_amplitude := 0;
     greeting := "Hello";
     on := "On" ++ String "013" (String "010" "");
     off := "Off" ++ String "013" (String "010" "");
     participantID := None; sessionID := None; sex := None; age := None;
     filename := None |}.

Definition set_connected (b : bool) (i : Interface) : Interface :=
  mkInterface b (inputCheck i) (ready i) (amplitudes i) (measures i) (num_measures i)
    (current_amplitude i) (greeting i) (on i) (off i)
    (participantID i) (sessionID i) (sex i) (age i) (filename i).
Definition set_inputCheck (b : bool) (i : Interface) : Interface :=
  mkInterface (connected i) b (ready i) (amplitudes i) (measures i) (num_measures i)
    (current_amplitude i) (greeting i) (on i) (off i)
    (participantID i) (sessionID i) (sex i) (age i) (filename i).
Definition set_ready (b : bool) (i : Interface) : Interface :=
  mkInterface (connected i) (inputCheck i) b (amplitudes i) (measures i) (num_measures i)
    (current_amplitude i) (greeting i) (on i) (off i)
    (participantID i) (sessionID i) (sex i) (age i) (filename i).
Definition append_measure (a m : Z) (i : Interface) : Interface :=
  mkInterface (connected i) (inputCheck i) (ready i)
    (amplitudes i ++ [a])%list (measures i ++ [m])%list (num_measures i)
    (current_amplitude i) (greeting i) (on i) (off i)
    (participantID i) (sessionID i) (sex i) (age i) (filename i).
Definition set_num_measures (n : nat) (i : Interface) : Interface :=
  mkInterface (connected i) (inputCheck i) (ready i) (amplitudes i) (measures i) n
    (current_amplitude i) (greeting i) (on i) (off i)
    (participantID i) (sessionID i) (sex i) (age i) (filename i).
Definition set_current_amplitude (a : Z) (i : Interface) : Interface :=
  mkInterface (connected i) (inputCheck i) (ready i) (amplitudes i) (measures i)
    (num_measures i) a (greeting i) (on i) (off i)
    (participantID i) (sessionID i) (sex i) (age i) (filename i).
Definition set_identity (p s : string) (sx ag : Z) (i : Interface) : Interface :=
  mkInterface (connected i) (inputCheck i) (ready i) (amplitudes i) (measures i)
    (num_measures i) (current_amplitude i) (greeting i) (on i) (off i)
    (Some p) (Some s) (Some sx) (Some ag) (filename i).
Definition set_filename (f : string) (i : Interface) : Interface :=
  mkInterface (connected i) (inputCheck i) (ready i) (amplitudes i) (measures i)
    (num_measures i) (current_amplitude i) (greeting i) (on i) (off i)
    (participantID i) (sessionID i) (sex i) (age i) (Some f).

Abbreviation Cmd := (M Interface unit).

(** [Interface.parseInputs] *)
Definition parseInputs : Cmd :=
  p ← get_text "Participant##input";
  s ← get_text "Session ID##input";
  sx ← get_int "Sex##input";
  ag ← get_int "Age##input";
  modify_iface (set_identity p s sx ag);;
  if py_eq (PStr p) (PStr "") then
    set_value "##OverallStatus" "Enter participant ID";;
    modify_iface (set_inputCheck false)
  else if py_eq (PStr s) (PStr "") then
    set_value "##OverallStatus" "Enter session ID";;
    modify_iface (set_inputCheck false)
  else if py_eq (PInt ag) (PStr "") then
    set_value "##OverallStatus" "Enter age";;
    modify_iface (set_inputCheck false)
  else
    let name := p ++ "_" ++ s ++ ".csv" in
    modify_iface (set_filename name);;
    ex ← path_exists name;
    if ex : bool then
      set_value "##OverallStatus" "File already exists";;
      modify_iface (set_inputCheck false)
    else
      modify_iface (set_inputCheck true).

(** [connect_callback] *)
Definition connect_callback : Cmd :=
  device_call DConnect;;
  modify_iface (set_connected true);;
  configure_item "Participant##input" true;;
  configure_item "Session ID##input" true;;
  configure_item "Age##input" true;;
  configure_item "Sex##input" true;;
  configure_item "Connect" false;;
  configure_item "Start session" true;;
  configure_item "End session" false;;
  set_value "##DeviceStatus" "Connected";;
  configure_color "##DeviceStatus" green;;
  set_value "##OverallStatus" "Device connected".

(** [startSession_callback] *)
Definition startSession_callback : Cmd :=
  parseInputs;;
  configure_item "Participant##input" false;;
  configure_item "Session ID##input" false;;
  configure_item "Age##input" false;;
  configure_item "Sex##input" false;;
  configure_item "End session" true;;
  configure_item "Start session" false;;
  set_value "##SessionStatus" "Started";;
  configure_color "##SessionStatus" green;;
  set_value "##OverallStatus" "Session started";;
  configure_item "Waveform##input" true;;
  configure_item "Frequency (Hz)##input" true;;
  configure_item "Duration (s)##input" false;;
  configure_item "Send" true;;
  configure_item "Stimulate" false.

(** The loop [for idx in range(n)] that writes the data rows. *)
Fixpoint write_rows (name : string) (idxs : list nat) : Cmd :=
  match idxs with
  | [] => skip
  | idx :: rest =>
      i ← get_iface;
      a ← index (amplitudes i) idx;
      m ← index (measures i) idx;
      write_line name [FInt a; FInt m];;
      write_rows name rest
  end.

(** [endSession_callback] *)
Definition endSession_callback : Cmd :=
  participant ← get_text "Participant##input";
  session ← get_text "Session ID##input";
  ag ← get_int "Age##input";
  sx ← get_int "Sex##input";
  pain_threshold ← get_int "Pain threshold##input";
  discomfort_threshold ← get_int "Discomfort threshold##input";
  i ← get_iface;
  name ← match filename i with Some f => mret f | None => raise AttributeError end;
  open_w name;;
  write_line name [FText "Participant ID"; FText "session ID"; FText "age"; FText "sex"];;
  write_line name [FText participant; FText session; FInt ag; FInt sx];;
  write_line name [];;
  write_line name [FText "Discomfort threshold"; FText "Pain threshold"];;
  write_line name [FInt discomfort_threshold; FInt pain_threshold];;
  write_line name [];;
  write_line name [FText "Amplitude"; FText "Measurement"];;
  write_rows name (seq 0 (num_measures i));;
  modify_iface (set_connected false);;
  modify_iface (set_ready false);;
  configure_item "Connect" true;;
  configure_item "Start session" false;;
  configure_item "End session" false;;
  configure_item "Waveform##input" false;;
  configure_item "Frequency (Hz)##input" false;;
  configure_item "Duration (s)##input" false;;
  configure_item "Send" false;;
  configure_item "Stimulate" false;;
  configure_item "Start" false;;
  configure_item "Discomfort threshold##input" false;;
  configure_item "Pain threshold##input" false;;
  configure_item "Amplitude##input" false;;
  configure_item "Measurement##input" false;;
  configure_item "Save measure" false;;
  set_value "##SessionStatus" "Not started";;
  configure_color "##SessionStatus" red;;
  set_value "##DeviceStatus" "Not connected";;
  configure_color "##DeviceStatus" red;;
  set_value "##OverallStatus" "Ready to connect".

Definition waveforms : list string :=
  ["Tonic"; "Sinusoidal"; "Wavelet"; "Offset wavelet"; "Sawtooth modulated"].

(** [send_waveform_callback].  The samples come from the waveform library;
    what is kept of them is the kind, amplitude and frequency sent. *)
Definition send_waveform_callback : Cmd :=
  waveform_id ← get_int "Waveform##input";
  waveform ← index_Z waveforms waveform_id;
  print waveform;;
  frequency ← get_int "Frequency (Hz)##input";
  let amplitude := 50 in
  print (waveform ++ ": " ++ pretty frequency ++ "Hz");;
  configure_item "Stimulate" false;;
  configure_item "Send" false;;
  configure_item "End session" false;;
  device_call (DSend waveform amplitude frequency);;
  i ← get_iface;
  set_value "##CurrentWaveform" waveform;;
  set_value "##CurrentFrequency" (pretty frequency);;
  set_value "##CurrentAmplitude" (pretty (current_amplitude i));;
  configure_item "Duration (s)##input" true;;
  configure_item "Stimulate" true;;
  configure_item "Send" true;;
  configure_item "End session" true;;
  configure_item "Start" true;;
  configure_item "Discomfort threshold##input" true;;
  configure_item "Pain threshold##input" true;;
  configure_item "Amplitude##input" true;;
  configure_item "Measurement##input" true;;
  configure_item "Save measure" true;;
  modify_iface (set_ready true).

Definition start_stimulation_status : Cmd :=
  configure_item "Start" false;;
  configure_item "Stop" true;;
  configure_item "Stimulate" false;;
  configure_item "Send" false;;
  configure_item "End session" false;;
  set_value "##StimulationStatus" "On";;
  configure_color "##StimulationStatus" green.

Definition stop_stimulation_status : Cmd :=
  configure_item "Start" true;;
  configure_item "Stop" false;;
  configure_item "Stimulate" true;;
  configure_item "Send" true;;
  configure_item "End session" true;;
  set_value "##StimulationStatus" "Off";;
  configure_color "##StimulationStatus" red.

Definition start_stimulation : Cmd :=
  start_stimulation_status;; device_call DStart.
Definition stop_stimulation : Cmd :=
  device_call DStop;; stop_stimulation_status.

(** [stimulate_callback] *)
Definition stimulate_callback : Cmd :=
  dur ← get_int "Duration (s)##input";
  start_stimulation;; sleep dur;; stop_stimulation.

(** [add_measure_callback] *)
Definition add_measure_callback : Cmd :=
  amplitude ← get_int "Amplitude##input";
  measure ← get_int "Measurement##input";
  modify_iface (append_measure amplitude measure);;
  i ← get_iface;
  modify_iface (set_num_measures (S (num_measures i)));;
  set_value "##NumMeasures" (pretty (S (num_measures i))).

(** What [monitor_serial] does with one non-empty [readline] result. *)
Definition handle_response (response : string) : Cmd :=
  decoded ← decode_utf8 response;
  let val := strip is_nul decoded in
  print val;;
  i ← get_iface;
  if py_eq (PStr val) (PBytes (greeting i)) then
    print "Greeting received"
  else if contains "On" val then
    start_stimulation_status
  else if contains "Off" val then
    stop_stimulation_status
  else
    match int_of_str val with
    | Some n =>
        modify_iface (set_current_amplitude n);;
        set_value "##CurrentAmplitude" (pretty n)
    | None => skip
    end.

(** The items as the window layout creates them. *)
Definition gui_init : Gui :=
  gui_enable "Connect" true
  (gui_text "##DeviceStatus" "Not connected"
  (gui_text "##SessionStatus" "Not started"
  (gui_text "##OverallStatus" "Ready to connect"
  (gui_text "##CurrentWaveform" "Not specified"
  (gui_text "##CurrentFrequency" "Not specified"
  (gui_text "##StimulationStatus" "Off"
  (gui_text "##CurrentAmplitude" "Not specified"
  (gui_text "##NumMeasures" "0"
  (gui_int "Age##input" 30
  (gui_int "Duration (s)##input" 5
  (gui_color "##DeviceStatus" red
  (gui_color "##SessionStatus" red
  (gui_color "##StimulationStatus" red
  (mkGui (fun _ => false) (fun _ => "") (fun _ => 0) (fun _ => []))))))))))))))).

(** The process as it starts, over a given directory, link and generator. *)
Definition world_init (files : FS) (up : bool) (draws : nat -> nat) : World Interface :=
  mkWorld Interface_init gui_init files up [] [] draws.

(** ** The listener thread next to the callbacks *)

(** One pass of the [while 1] body of [monitor_serial], given what
    [readline] returns should it be called. *)
Definition monitor_pass (response : string) : Cmd :=
  i ← get_iface;
  if ready i then
    if String.eqb response "" then skip else handle_response response
  else skip.

(** [monitor_serial] over the successive results of [readline]: a pass that
    raises ends the thread, and the remaining lines are never looked at. *)
Fixpoint monitor_serial (responses : list string) : Cmd :=
  match responses with
  | [] => skip
  | r :: rest => monitor_pass r;; monitor_serial rest
  end.

(** Where the listener thread stands: before the test of [interface.ready],
    inside [readline] after a test that succeeded, or ended by an exception
    nothing caught. *)
Inductive listener_pc : Type :=
| AtCheck
| AtRead
| Dead (e : exn).

(** The operator's actions on the form. *)
Inductive op : Type :=
| ClickConnect
| ClickStartSession
| ClickEndSession
| ClickSend
| ClickStimulate
| ClickStart
| ClickStop
| ClickSaveMeasure
| TypeText (tag s : string)
| TypeInt (tag : string) (z : Z).

Definition run_op (o : op) : Cmd :=
  match o with
  | ClickConnect => click "Connect" connect_callback
  | ClickStartSession => click "Start session" startSession_callback
  | ClickEndSession => click "End session" endSession_callback
  | ClickSend => click "Send" send_waveform_callback
  | ClickStimulate => click "Stimulate" stimulate_callback
  | ClickStart => click "Start" start_stimulation
  | ClickStop => click "Stop" stop_stimulation
  | ClickSaveMeasure => click "Save measure" add_measure_callback
  | TypeText tag s => type_text tag s
  | TypeInt tag z => type_int tag z
  end.

(** The process with its two threads and the serial input buffer. *)
Record System : Type := mkSystem {
  world : World Interface;
  pc : listener_pc;
  inbox : list string;      (* lines the device sent that nobody read yet *)
}.

Inductive event : Type :=
| Operator (o : op)         (* a callback runs to its end *)
| DeviceSends (l : string)  (* a line arrives in the serial buffer *)
| Listener                  (* the listener thread takes its next step *)
| ReadTimeout.              (* a pending [readline] gives up and returns [b''] *)

(** One step of the interleaving.  A callback that raises leaves the world
    as it was at the raise; the form goes on. *)
Definition sys_step (e : event) (s : System) : System :=
  match e with
  | Operator o => mkSystem (final (run_op o (world s))) (pc s) (inbox s)
  | DeviceSends l => mkSystem (world s) (pc s) (inbox s ++ [l])%list
  | Listener =>
      match pc s with
      | AtCheck =>
          if ready (iface (world s)) then mkSystem (world s) AtRead (inbox s) else s
      | AtRead =>
          match inbox s with
          | [] => s
          | l :: rest =>
              match (if String.eqb l "" then skip else handle_response l) (world s) with
              | Done _ w' => mkSystem w' AtCheck rest
              | Raised e w' => mkSystem w' (Dead e) rest
              end
          end
      | Dead _ => s
      end
  | ReadTimeout =>
      match pc s with
      | AtRead => mkSystem (world s) AtCheck (inbox s)
      | _ => s
      end
  end.

Definition sys_run (evs : list event) (s : System) : System :=
  foldl (fun s e => sys_step e s) s evs.

Definition sys_init (files : FS) (up : bool) (draws : nat -> nat) : System :=
  mkSystem (world_init files up draws) AtCheck [].

(** Whether the step reads a line from the serial buffer. *)
Definition reads_line (e : event) (s : System) : bool :=
  match e, pc s, inbox s with
  | Listener, AtRead, _ :: _ => true
  | _, _, _ => false
  end.

(** How many lines a run reads while [interface.ready] is false. *)
Fixpoint unready_reads (evs : list event) (s : System) : nat :=
  match evs with
  | [] => 0
  | e :: rest =>
      ((if reads_line e s && negb (ready (iface (world s))) then 1 else 0)
       + unready_reads rest (sys_step e s))%nat
  end.

(** How many times the operator clicks "End session" in a run. *)
Definition is_end (e : event) : bool :=
  match e with Operator ClickEndSession => true | _ => false end.
Definition count_end (evs : list event) : nat := length (filter is_end evs).

End Amplitude.

(** * [hypoglossal_gui.py]: calibrated threshold and randomised multipliers *)

Module Hypoglossal.

Record Interface : Type := mkInterface {
  connected : bool;
  inputCheck : bool;
  ready : bool;
  calibrated : bool;
  num_repeats : nat;
  multiplier_values : list float;  (* by canonical index *)
  amplitude_id : nat;              (* position in the administration order *)
  NUM_MEASURES : nat;
  multipliers : list nat;          (* administration order: canonical indices *)
  measures : list float;           (* by canonical index *)
  current_amplitude : Z;
  greeting : string;               (* bytes *)
  on : string;                     (* bytes *)
  off : string;                    (* bytes *)
  (* attributes that exist only once [parseInputs] has assigned them *)
  participantID : option string;
  sessionID : option string;
  sex : option string;
  age : option Z;
  sessionType : option string;
  filename : option string;
}.

(** [np.tile(base, reps)] *)
Definition tile {A} (base : list A) (reps : nat) : list A :=
  mjoin (replicate reps base).

(** [Interface.__init__], with the multiplier table and the repeat count as
    parameters. *)
Definition make_Interface (base : list float) (reps : nat) : Interface :=
  let values := tile base reps in
  {| connected := false; inputCheck := false; ready := false; calibrated := false;
     num_repeats := reps;
     multiplier_values := values;
     amplitude_id := 0;
     NUM_MEASURES := length values;
     multipliers := seq 0 (length values);
     measures := replicate (length values) 0%float;
     current_amplitude := 50;
     greeting := "Hello";
     on := "On" ++ String "013" (String "010" "");
     off := "Off" ++ String "013" (String "010" "");
     participantID := None; sessionID := None; sex := None; age := None;
     sessionType := None; filename := None |}.

Definition base_multipliers : list float :=
  [0.1; 0.2; 0.3; 0.4; 0.5; 0.6; 0.7; 0.8; 0.9]%float.

(** The instance the module creates: nine multipliers, three repeats. *)
Definition Interface_init : Interface := make_Interface base_multipliers 3.

Definition set_connected (b : bool) (i : Interface) : Interface :=
  mkInterface b (inputCheck i) (ready i) (calibrated i) (num_repeats i)
    (multiplier_values i) (amplitude_id i) (NUM_MEASURES i) (multipliers i) (measures i)
    (current_amplitude i) (greeting i) (on i) (off i)
    (participantID i) (sessionID i) (sex i) (age i) (sessionType i) (filename i).
Definition set_inputCheck (b : bool) (i : Interface) : Interface :=
  mkInterface (connected i) b (ready i) (calibrated i) (num_repeats i)
    (multiplier_values i) (amplitude_id i) (NUM_MEASURES i) (multipliers i) (measures i)
    (current_amplitude i) (greeting i) (on i) (off i)
    (participantID i) (sessionID i) (sex i) (age i) (sessionType i) (filename i).
Definition set_ready (b : bool) (i : Interface) : Interface :=
  mkInterface (connected i) (inputCheck i) b (calibrated i) (num_repeats i)
    (multiplier_values i) (amplitude_id i) (NUM_MEASURES i) (multipliers i) (measures i)
    (current_amplitude i) (greeting i) (on i) (off i)
    (participantID i) (sessionID i) (sex i) (age i) (sessionType i) (filename i).
Definition set_calibrated (b : bool) (i : Interface) : Interface :=
  mkInterface (connected i) (inputCheck i) (ready i) b (num_repeats i)
    (multiplier_values i) (amplitude_id i) (NUM_MEASURES i) (multipliers i) (measures i)
    (current_amplitude i) (greeting i) (on i) (off i)
    (participantID i) (sessionID i) (sex i) (age i) (sessionType i) (filename i).
Definition set_amplitude_id (n : nat) (i : Interface) : Interface :=
  mkInterface (connected i) (inputCheck i) (ready i) (calibrated i) (num_repeats i)
    (multiplier_values i) n (NUM_MEASURES i) (multipliers i) (measures i)
    (current_amplitude i) (greeting i) (on i) (off i)
    (participantID i) (sessionID i) (sex i) (age i) (sessionType i) (filename i).
Definition set_multipliers (l : list nat) (i : Interface) : Interface :=
  mkInterface (connected i) (inputCheck i) (ready i) (calibrated i) (num_repeats i)
    (multiplier_values i) (amplitude_id i) (NUM_MEASURES i) l (measures i)
    (current_amplitude i) (greeting i) (on i) (off i)
    (participantID i) (sessionID i) (sex i) (age i) (sessionType i) (filename i).
Definition set_measures (l : list float) (i : Interface) : Interface :=
  mkInterface (connected i) (inputCheck i) (ready i) (calibrated i) (num_repeats i)
    (multiplier_values i) (amplitude_id i) (NUM_MEASURES i) (multipliers i) l
    (current_amplitude i) (greeting i) (on i) (off i)
    (participantID i) (sessionID i) (sex i) (age i) (sessionType i) (filename i).
Definition set_current_amplitude (a : Z) (i : Interface) : Interface :=
  mkInterface (connected i) (inputCheck i) (ready i) (calibrated i) (num_repeats i)
    (multiplier_values i) (amplitude_id i) (NUM_MEASURES i) (multipliers i) (measures i)
    a (greeting i) (on i) (off i)
    (participantID i) (sessionID i) (sex i) (age i) (sessionType i) (filename i).
Definition set_identity (p s sx : string) (ag : Z) (i : Interface) : Interface :=
  mkInterface (connected i) (inputCheck i) (ready i) (calibrated i) (num_repeats i)
    (multiplier_values i) (amplitude_id i) (NUM_MEASURES i) (multipliers i) (measures i)
    (current_amplitude i) (greeting i) (on i) (off i)
    (Some p) (Some s) (Some sx) (Some ag) (sessionType i) (filename i).
Definition set_sessionType (t : string) (i : Interface) : Interface :=
  mkInterface (connected i) (inputCheck i) (ready i) (calibrated i) (num_repeats i)
    (multiplier_values i) (amplitude_id i) (NUM_MEASURES i) (multipliers i) (measures i)
    (current_amplitude i) (greeting i) (on i) (off i)
    (participantID i) (sessionID i) (sex i) (age i) (Some t) (filename i).
Definition set_filename (f : string) (i : Interface) : Interface :=
  mkInterface (connected i) (inputCheck i) (ready i) (calibrated i) (num_repeats i)
    (multiplier_values i) (amplitude_id i) (NUM_MEASURES i) (multipliers i) (measures i)
    (current_amplitude i) (greeting i) (on i) (off i)
    (participantID i) (sessionID i) (sex i) (age i) (sessionType i) (Some f).

Abbreviation Cmd := (M Interface unit).

(** Reading an attribute that was never assigned raises. *)
Definition attribute {A} (a : option A) : M Interface A :=
  match a with Some x => mret x | None => raise AttributeError end.

(** [Interface.parseInputs] *)
Definition parseInputs : Cmd :=
  p ← get_text "Participant##input";
  s ← get_text "Session ID##input";
  sx ← get_text "Sex##input";
  ag ← get_int "Age##input";
  modify_iface (set_identity p s sx ag);;
  if py_eq (PStr p) (PStr "") then
    set_value "##OverallStatus" "Enter participant ID";;
    modify_iface (set_inputCheck false)
  else if py_eq (PStr s) (PStr "") then
    set_value "##OverallStatus" "Enter session ID";;
    modify_iface (set_inputCheck false)
  else if py_eq (PInt ag) (PStr "") then
    set_value "##OverallStatus" "Enter age";;
    modify_iface (set_inputCheck false)
  else
    (if py_eq (PStr s) (PStr "Hyomental") then modify_iface (set_sessionType "hyomental")
     else if py_eq (PStr s) (PStr "Tongue") then modify_iface (set_sessionType "tongue")
     else skip);;
    i ← get_iface;
    t ← attribute (sessionType i);
    let name := p ++ "_" ++ t ++ ".csv" in
    modify_iface (set_filename name);;
    ex ← path_exists name;
    if ex : bool then
      set_value "##OverallStatus" "File already exists";;
      modify_iface (set_inputCheck false)
    else
      modify_iface (set_inputCheck true).

(** [connect_callback] *)
Definition connect_callback : Cmd :=
  device_call DConnect;;
  modify_iface (set_connected true);;
  configure_item "Participant##input" true;;
  configure_item "Session ID##input" true;;
  configure_item "Age##input" true;;
  configure_item "Sex##input" true;;
  configure_item "Connect" false;;
  configure_item "Start session" true;;
  configure_item "End session" false;;
  set_value "##DeviceStatus" "Connected";;
  configure_color "##DeviceStatus" green;;
  set_value "##OverallStatus" "Device connected".

(** [startSession_callback] *)
Definition startSession_callback : Cmd :=
  parseInputs;;
  i ← get_iface;
  if inputCheck i then
    modify_iface (set_amplitude_id 0);;
    order ← np_random_shuffle (multipliers i);
    modify_iface (set_multipliers order);;
    configure_item "Participant##input" false;;
    configure_item "Session ID##input" false;;
    configure_item "Age##input" false;;
    configure_item "Sex##input" false;;
    configure_item "End session" true;;
    configure_item "Start session" false;;
    set_value "##SessionStatus" "Started";;
    configure_color "##SessionStatus" green;;
    set_value "##OverallStatus" "Session started";;
    configure_item "Load" true
  else
    skip.

(** One data row: [int(threshold_current * multiplier)], the multiplier and
    the measurement stored under the same canonical index. *)
Definition trial_row (threshold_current : Z) (multiplier val : float) : line :=
  [FInt (int_of_float (float_of_Z threshold_current * multiplier)%float);
   FFloat multiplier; FFloat val].

(** The loop [for idx in range(NUM_MEASURES)] of [endSession_callback]. *)
Fixpoint write_rows (name : string) (threshold_current : Z) (idxs : list nat) : Cmd :=
  match idxs with
  | [] => skip
  | idx :: rest =>
      i ← get_iface;
      val ← index (measures i) idx;
      multiplier ← index (multiplier_values i) idx;
      write_line name (trial_row threshold_current multiplier val);;
      write_rows name threshold_current rest
  end.

(** [endSession_callback] *)
Definition endSession_callback : Cmd :=
  participant ← get_text "Participant##input";
  i ← get_iface;
  session ← attribute (sessionType i);
  ag ← get_int "Age##input";
  sx ← get_text "Sex##input";
  baseline ← get_int "Baseline (mm)##input";
  threshold_current ← get_int "Tolerance threshold (mA)##input";
  threshold_measure ← get_int "Measurement (mm)##input";
  name ← attribute (filename i);
  open_w name;;
  write_line name [FText "Participant ID"; FText "session ID"; FText "age"; FText "sex"];;
  write_line name [FText participant; FText session; FInt ag; FText sx];;
  write_line name [];;
  write_line name [FText "Amplitude"; FText "multiplier"; FText "measure"];;
  write_line name [FText "0"; FText "0.0"; FInt baseline];;
  write_line name [FInt threshold_current; FText "1.0"; FInt threshold_measure];;
  write_rows name threshold_current (seq 0 (NUM_MEASURES i));;
  modify_iface (set_connected false);;
  modify_iface (set_ready false);;
  modify_iface (set_calibrated false);;
  configure_item "Connect" true;;
  configure_item "Start session" false;;
  configure_item "End session" false;;
  configure_item "Duration (s)##input" false;;
  configure_item "Load" false;;
  configure_item "Stimulate" false;;
  configure_item "Start" false;;
  configure_item "Baseline (mm)##input" false;;
  configure_item "Tolerance threshold (mA)##input" false;;
  configure_item "Measure (mm)##input" false;;
  configure_item "Measurement (mm)##input" false;;
  configure_item "Next" false;;
  configure_item "Done calibration" false;;
  set_value "##SessionStatus" "Not started";;
  configure_color "##SessionStatus" red;;
  set_value "##DeviceStatus" "Not connected";;
  configure_color "##DeviceStatus" red;;
  set_value "##OverallStatus" "Ready to connect".

(** [send_waveform]: a wavelet at the current amplitude. *)
Definition send_waveform : Cmd :=
  i ← get_iface;
  print (pretty (current_amplitude i));;
  configure_item "Start" false;;
  configure_item "Stimulate" false;;
  configure_item "Load" false;;
  configure_item "End session" false;;
  configure_item "Next" false;;
  device_call (DSend "Wavelet" (current_amplitude i) 10000);;
  configure_item "Duration (s)##input" true;;
  configure_item "Stimulate" true;;
  configure_item "Load" true;;
  configure_item "End session" true;;
  configure_item "Start" true;;
  configure_item "Baseline (mm)##input" true;;
  configure_item "Tolerance threshold (mA)##input" true;;
  configure_item "Measure (mm)##input" true;;
  configure_item "Measurement (mm)##input" true;;
  (if calibrated i then configure_item "Next" true else skip);;
  modify_iface (set_ready true).

(** [send_waveform_callback] *)
Definition send_waveform_callback : Cmd :=
  send_waveform;;
  configure_item "Done calibration" true;;
  configure_item "Load" false.

Definition start_stimulation_status : Cmd :=
  configure_item "Start" false;;
  configure_item "Stop" true;;
  configure_item "Stimulate" false;;
  configure_item "Load" false;;
  configure_item "End session" false;;
  configure_item "Next" false;;
  configure_item "Done calibration" false;;
  set_value "##StimulationStatus" "On";;
  configure_color "##StimulationStatus" green.

Definition stop_stimulation_status : Cmd :=
  configure_item "Start" true;;
  configure_item "Stop" false;;
  configure_item "Stimulate" true;;
  configure_item "Load" true;;
  configure_item "End session" true;;
  i ← get_iface;
  (if calibrated i then configure_item "Next" true
   else configure_item "Done calibration" true);;
  set_value "##StimulationStatus" "Off";;
  configure_color "##StimulationStatus" red.

Definition start_stimulation : Cmd :=
  start_stimulation_status;; device_call DStart.
Definition stop_stimulation : Cmd :=
  device_call DStop;; stop_stimulation_status.

(** [stimulate_callback] *)
Definition stimulate_callback : Cmd :=
  dur ← get_int "Duration (s)##input";
  start_stimulation;; sleep dur;; stop_stimulation.

(** [int(50 * multiplier_values[multipliers[amplitude_id]])] *)
Definition trial_amplitude (i : Interface) : M Interface Z :=
  c ← index (multipliers i) (amplitude_id i);
  m ← index (multiplier_values i) c;
  mret (int_of_float (float_of_Z 50 * m)%float).

(** [measures[c] = v] on the numpy array: out of range raises. *)
Definition store_measure (c : nat) (v : float) : Cmd :=
  i ← get_iface;
  if bool_decide (c < length (measures i))%nat
  then modify_iface (set_measures (<[c := v]> (measures i)))
  else raise IndexError.

(** [add_measure_callback], bound to the "Next" button *)
Definition add_measure_callback : Cmd :=
  measure ← get_int "Measure (mm)##input";
  i ← get_iface;
  c ← index (multipliers i) (amplitude_id i);
  store_measure c (float_of_Z measure);;
  modify_iface (set_amplitude_id (S (amplitude_id i)));;
  set_value "##NumMeasures" (pretty (S (amplitude_id i)));;
  if bool_decide (S (amplitude_id i) < NUM_MEASURES i)%nat then
    i' ← get_iface;
    a ← trial_amplitude i';
    modify_iface (set_current_amplitude a);;
    send_waveform
  else
    configure_item "Start session" false;;
    configure_item "End session" true;;
    configure_item "Duration (s)##input" false;;
    configure_item "Load" false;;
    configure_item "Stimulate" false;;
    configure_item "Start" false;;
    configure_item "Baseline (mm)##input" false;;
    configure_item "Tolerance threshold (mA)##input" false;;
    configure_item "Measure (mm)##input" false;;
    configure_item "Measurement (mm)##input" false;;
    configure_item "Next" false;;
    set_value "##OverallStatus" "Session complete".

(** [done_calibration_callback] *)
Definition done_calibration_callback : Cmd :=
  i ← get_iface;
  a ← trial_amplitude i;
  modify_iface (set_current_amplitude a);;
  send_waveform;;
  configure_item "Next" true;;
  configure_item "Done calibration" false;;
  modify_iface (set_calibrated true).

(** The items as the window layout creates them. *)
Definition gui_init : Gui :=
  gui_enable "Connect" true
  (gui_text "Session ID##input" "Hyomental"
  (gui_text "Sex##input" "Male"
  (gui_text "##DeviceStatus" "Not connected"
  (gui_text "##SessionStatus" "Not started"
  (gui_text "##OverallStatus" "Ready to connect"
  (gui_text "##StimulationStatus" "Off"
  (gui_text "##CurrentAmplitude" "Not specified"
  (gui_text "##NumMeasures" "0"
  (gui_int "Age##input" 30
  (gui_int "Duration (s)##input" 5
  (gui_color "##DeviceStatus" red
  (gui_color "##SessionStatus" red
  (gui_color "##StimulationStatus" red
  (mkGui (fun _ => false) (fun _ => "") (fun _ => 0) (fun _ => []))))))))))))))).

(** The process as it starts, over a given directory, link and generator. *)
Definition world_init (files : FS) (up : bool) (draws : nat -> nat) : World Interface :=
  mkWorld Interface_init gui_init files up [] [] draws.

End Hypoglossal.

(** * What the operator sees *)

(** The session state is what the status labels show. *)
Inductive session_state : Type := Disconnected | Connected | SessionActive.

Definition overall_status {I} (w : World I) : string := text (gui w) "##OverallStatus".
Definition session_status {I} (w : World I) : string := text (gui w) "##SessionStatus".
Definition device_status {I} (w : World I) : string := text (gui w) "##DeviceStatus".

Definition state_of {I} (w : World I) : session_state :=
  if String.eqb (session_status w) "Started" then SessionActive
  else if String.eqb (device_status w) "Connected" then Connected
  else Disconnected.

(** The inputs that identify the session. *)
Definition identity_inputs : list string :=
  ["Participant##input"; "Session ID##input"; "Age##input"; "Sex##input"].

(** The stimulation flag, as the listener's status updates leave it. *)
Definition stimulation_on {I} (w : World I) : bool :=
  String.eqb (text (gui w) "##StimulationStatus") "On".

(** Running a sequence of statements: unfold the primitives, then compute. *)
Ltac step :=
  cbv beta iota delta
    [mbind M_bind mret M_ret skip raise sleep get_text get_int get_iface modify_iface
     set_value configure_item configure_color print path_exists open_w write_line
     with_gui with_iface with_fs with_stdout with_dev_log with_rng
     iface gui fs device_up dev_log stdout rng].

(** The same with clicks, typing, indexing and decoding unfolded. *)
Ltac step_all :=
  cbv beta iota delta
    [mbind M_bind mret M_ret skip raise sleep get_text get_int get_iface modify_iface
     set_value configure_item configure_color print path_exists open_w write_line
     device_call click type_text type_int index index_Z decode_utf8
     with_gui with_iface with_fs with_stdout with_dev_log with_rng
     iface gui fs device_up dev_log stdout rng].

(** Case analysis on the tests a run is stuck on, innermost first. *)
Ltac branch :=
  repeat
    (cbv beta iota;
     match goal with
     | |- context [match ?b with true => _ | false => _ end] =>
         lazymatch b with
         | context [match _ with true => _ | false => _ end] => fail
         | context [match _ with Some _ => _ | None => _ end] => fail
         | _ => destruct b eqn:?
         end
     | |- context [match ?x with Some _ => _ | None => _ end] =>
         lazymatch x with
         | context [match _ with true => _ | false => _ end] => fail
         | context [match _ with Some _ => _ | None => _ end] => fail
         | _ => destruct x eqn:?
         end
     end).

Lemma with_fs_same {I} (w : World I) : with_fs (fs w) w = w.
Proof. by destruct w. Qed.

Lemma bind_done {I A B} (c : M I A) (k : A -> M I B) w a w' :
  c w = Done a w' -> (c ≫= k) w = k a w'.
Proof. unfold mbind, M_bind. by intros ->. Qed.

Lemma bind_raised {I A B} (c : M I A) (k : A -> M I B) w e w' :
  c w = Raised e w' -> (c ≫= k) w = Raised e w'.
Proof. unfold mbind, M_bind. by intros ->. Qed.

Lemma index_lookup {I A} (l : list A) (n : nat) (x : A) (w : World I) :
  l !! n = Some x -> index l n w = Done x w.
Proof. unfold index. by intros ->. Qed.

Lemma index_out_of_range {I A} (l : list A) (n : nat) (w : World I) :
  (length l <= n)%nat -> index (A := A) l n w = Raised IndexError w.
Proof. intros H. unfold index. by rewrite (lookup_ge_None_2 l n H). Qed.

(** * Facts about [amplitude_gui.py] *)

Module AmplitudeFacts.
Import Amplitude.

(** The lists of amplitudes and measures grow together with the counter. *)
Definition aligned (i : Interface) : Prop :=
  length (amplitudes i) = num_measures i /\ length (measures i) = num_measures i.

(** The data rows [endSession_callback] writes: one per stored pair. *)
Definition data_rows (i : Interface) : list line :=
  zip_with (fun a m => [FInt a; FInt m]) (amplitudes i) (measures i).

Definition row_at (i : Interface) (idx : nat) : line :=
  [FInt (amplitudes i !!! idx); FInt (measures i !!! idx)].

(** The whole file of a session. *)
Definition dataset (participant session : string) (ag sx discomfort pain : Z)
    (rows : list line) : list line :=
  ([ [FText "Participant ID"; FText "session ID"; FText "age"; FText "sex"];
     [FText participant; FText session; FInt ag; FInt sx];
     [];
     [FText "Discomfort threshold"; FText "Pain threshold"];
     [FInt discomfort; FInt pain];
     [];
     [FText "Amplitude"; FText "Measurement"] ] ++ rows)%list.

Lemma write_rows_spec name idxs (w : World Interface) old :
  fs w !! name = Some old ->
  Forall (fun idx => (idx < length (amplitudes (iface w)))%nat
                     /\ (idx < length (measures (iface w)))%nat) idxs ->
  write_rows name idxs w
  = Done tt (with_fs (<[name := (old ++ map (row_at (iface w)) idxs)%list]> (fs w)) w).
Proof.
  revert w old. induction idxs as [|idx rest IH]; intros w old Hold Hall.
  - cbn. rewrite app_nil_r, insert_id by done. by rewrite with_fs_same.
  - apply Forall_cons in Hall as [[Ha Hm] Hrest].
    destruct (lookup_lt_is_Some_2 _ _ Ha) as [a Hla].
    destruct (lookup_lt_is_Some_2 _ _ Hm) as [m Hlm].
    cbn [write_rows]. destruct w as [i g f up lg out r]. cbn in *.
    step. unfold index. rewrite Hla, Hlm. step. rewrite Hold.
    rewrite (IH _ (old ++ [[FInt a; FInt m]])%list); cbn.
    + unfold row_at. rewrite (list_lookup_total_correct _ _ _ Hla).
      rewrite (list_lookup_total_correct _ _ _ Hlm).
      by rewrite insert_insert_eq, <- app_assoc.
    + by rewrite lookup_insert_eq.
    + done.
Qed.

Lemma rows_seq (i : Interface) :
  aligned i -> map (row_at i) (seq 0 (num_measures i)) = data_rows i.
Proof.
  intros [Ha Hm]. unfold data_rows. apply list_eq; intros j.
  rewrite list_lookup_fmap, lookup_zip_with.
  destruct (decide (j < num_measures i)%nat) as [Hj|Hj].
  - rewrite lookup_seq_lt by done. cbn.
    destruct (lookup_lt_is_Some_2 (amplitudes i) j) as [a Hla]; [lia|].
    destruct (lookup_lt_is_Some_2 (measures i) j) as [m Hlm]; [lia|].
    rewrite Hla, Hlm. cbn. unfold row_at.
    by rewrite (list_lookup_total_correct _ _ _ Hla), (list_lookup_total_correct _ _ _ Hlm).
  - rewrite lookup_seq_ge by lia. cbn.
    by rewrite (lookup_ge_None_2 (amplitudes i) j) by lia.
Qed.

(** What [endSession_callback] leaves in the file named by [interface.filename]. *)
Lemma endSession_writes (w : World Interface) name :
  filename (iface w) = Some name ->
  aligned (iface w) ->
  exists w', endSession_callback w = Done tt w'
    /\ fs w' = <[name := dataset (text (gui w) "Participant##input")
                            (text (gui w) "Session ID##input")
                            (int_in (gui w) "Age##input") (int_in (gui w) "Sex##input")
                            (int_in (gui w) "Discomfort threshold##input")
                            (int_in (gui w) "Pain threshold##input")
                            (data_rows (iface w))]> (fs w)
    /\ amplitudes (iface w') = amplitudes (iface w)
    /\ measures (iface w') = measures (iface w)
    /\ num_measures (iface w') = num_measures (iface w)
    /\ current_amplitude (iface w') = current_amplitude (iface w)
    /\ ready (iface w') = false
    /\ (forall tag, In tag identity_inputs ->
          enabled (gui w') tag = enabled (gui w) tag)
    /\ stimulation_on w' = stimulation_on w
    /\ state_of w' = Disconnected.
Proof.
  intros Hname Hal. destruct w as [i g f up lg out r]. cbn in *.
  unfold endSession_callback. step. rewrite Hname. step.
  rewrite !lookup_insert_eq, !insert_insert_eq. cbn [default from_option id app].
  erewrite write_rows_spec;
    [| cbn; apply lookup_insert_eq
     | apply Forall_forall; intros x Hx%elem_of_seq; destruct Hal; cbn; lia].
  step. rewrite insert_insert_eq. cbn [app]. rewrite (rows_seq i Hal).
  eexists; split; [reflexivity|]. cbn. repeat split; try done.
  intros tag Htag. cbn in Htag.
  repeat (destruct Htag as [<-|Htag]; [reflexivity|]). done.
Qed.

(** [startSession_callback] never consults [inputCheck]: whatever the inputs,
    it returns with the session started. *)
Lemma startSession_starts (w : World Interface) :
  exists w', startSession_callback w = Done tt w'
    /\ state_of w' = SessionActive
    /\ overall_status w' = "Session started"
    /\ enabled (gui w') "Send" = true
    /\ enabled (gui w') "End session" = true
    /\ fs w' = fs w
    /\ amplitudes (iface w') = amplitudes (iface w)
    /\ measures (iface w') = measures (iface w)
    /\ num_measures (iface w') = num_measures (iface w)
    /\ (forall tag, int_in (gui w') tag = int_in (gui w) tag)
    /\ text (gui w') "Participant##input" = text (gui w) "Participant##input"
    /\ text (gui w') "Session ID##input" = text (gui w) "Session ID##input".
Proof.
  destruct w as [i g f up lg out r].
  unfold startSession_callback, parseInputs. step.
  destruct (py_eq _ _); [|destruct (py_eq _ _); [|destruct (py_eq _ _); [|destruct (bool_decide _)]]];
    (eexists; split; [reflexivity|]; cbn; by repeat split).
Qed.

(** The world once the operator has connected, over a given directory. *)
Definition connected_world (files : FS) : World Interface :=
  final (click "Connect" connect_callback (world_init files true (fun _ => 0%nat))).

(** C1, on [amplitude_gui.py]: a start with an empty participant ID is not
    held back.  [parseInputs] records the failure in [inputCheck], but
    [startSession_callback] goes on: the session is shown as started, the
    message naming the missing field is overwritten by "Session started",
    and the trial controls are enabled. *)
Theorem startSession_ignores_failed_validation (w : World Interface) :
  text (gui w) "Participant##input" = "" ->
  exists w', startSession_callback w = Done tt w'
    /\ inputCheck (iface w') = false
    /\ state_of w' = SessionActive
    /\ overall_status w' = "Session started"
    /\ enabled (gui w') "Send" = true
    /\ enabled (gui w') "End session" = true.
Proof.
  intros Hp. destruct w as [i g f up lg out r]. cbn in Hp.
  unfold startSession_callback, parseInputs. step. rewrite Hp.
  eexists; split; [reflexivity|]. cbn. by repeat split.
Qed.

Lemma startSession_ignores_failed_validation_witness :
  state_of (connected_world ∅) = Connected
  /\ exists w', startSession_callback (connected_world ∅) = Done tt w'
    /\ inputCheck (iface w') = false
    /\ state_of w' = SessionActive
    /\ overall_status w' = "Session started"
    /\ enabled (gui w') "Send" = true
    /\ enabled (gui w') "End session" = true.
Proof.
  split; [reflexivity|].
  apply (startSession_ignores_failed_validation (connected_world ∅)).
  reflexivity.
Defined.

(** A start over an existing file: the check fails, the name is kept, and
    the session starts all the same. *)
Lemma startSession_existing_file (w : World Interface) p s old :
  text (gui w) "Participant##input" = p ->
  text (gui w) "Session ID##input" = s ->
  p <> "" -> s <> "" ->
  fs w !! (p ++ "_" ++ s ++ ".csv") = Some old ->
  exists w', startSession_callback w = Done tt w'
    /\ filename (iface w') = Some (p ++ "_" ++ s ++ ".csv")
    /\ inputCheck (iface w') = false
    /\ state_of w' = SessionActive
    /\ overall_status w' = "Session started"
    /\ enabled (gui w') "End session" = true
    /\ fs w' = fs w
    /\ amplitudes (iface w') = amplitudes (iface w)
    /\ measures (iface w') = measures (iface w)
    /\ num_measures (iface w') = num_measures (iface w)
    /\ (forall tag, int_in (gui w') tag = int_in (gui w) tag)
    /\ text (gui w') "Participant##input" = p
    /\ text (gui w') "Session ID##input" = s.
Proof.
  intros Hp Hs Hpne Hsne Hold. destruct w as [i g f up lg out r]. cbn in *.
  unfold startSession_callback, parseInputs. step. rewrite Hp, Hs.
  cbn [py_eq].
  rewrite (proj2 (String.eqb_neq p "") Hpne), (proj2 (String.eqb_neq s "") Hsne).
  rewrite Hold. rewrite bool_decide_eq_true_2 by eauto.
  eexists; split; [reflexivity|]. cbn. by repeat split.
Qed.

(** C2, on [amplitude_gui.py]: a start whose output path names an existing
    file is not rejected, and ending that session replaces what the file
    held by the new dataset. *)
Theorem existing_file_overwritten (w : World Interface) p s old :
  text (gui w) "Participant##input" = p ->
  text (gui w) "Session ID##input" = s ->
  p <> "" -> s <> "" ->
  fs w !! (p ++ "_" ++ s ++ ".csv") = Some old ->
  aligned (iface w) ->
  exists w1 w2,
    startSession_callback w = Done tt w1
    /\ inputCheck (iface w1) = false
    /\ state_of w1 = SessionActive
    /\ fs w1 !! (p ++ "_" ++ s ++ ".csv") = Some old
    /\ click "End session" endSession_callback w1 = Done tt w2
    /\ fs w2 !! (p ++ "_" ++ s ++ ".csv")
       = Some (dataset p s (int_in (gui w) "Age##input") (int_in (gui w) "Sex##input")
                 (int_in (gui w) "Discomfort threshold##input")
                 (int_in (gui w) "Pain threshold##input")
                 (data_rows (iface w))).
Proof.
  intros Hp Hs Hpne Hsne Hold [Ha Hm].
  destruct (startSession_existing_file w p s old Hp Hs Hpne Hsne Hold)
    as (w1 & Hrun & Hname & Hic & Hst & _ & Hen & Hfs & Hamp & Hmeas & Hnum & Hint & Hp1 & Hs1).
  destruct (endSession_writes w1 _ Hname) as (w2 & Hend & Hfs2 & _).
  { split; congruence. }
  exists w1, w2. repeat split; try done.
  - by rewrite Hfs.
  - unfold click. by rewrite Hen.
  - rewrite Hfs2, lookup_insert_eq, Hp1, Hs1, !Hint.
    unfold data_rows. by rewrite Hamp, Hmeas.
Qed.

Definition old_file : list line := [[FText "earlier results"]].

Lemma existing_file_overwritten_witness :
  exists w1 w2,
    startSession_callback
      (final ((type_text "Participant##input" "P1";;
               type_text "Session ID##input" "S1")
                (connected_world {["P1_S1.csv" := old_file]}))) = Done tt w1
    /\ inputCheck (iface w1) = false
    /\ state_of w1 = SessionActive
    /\ fs w1 !! "P1_S1.csv" = Some old_file
    /\ click "End session" endSession_callback w1 = Done tt w2
    /\ fs w2 !! "P1_S1.csv" = Some (dataset "P1" "S1" 30 0 0 0 []).
Proof.
  exact (existing_file_overwritten
           (final ((type_text "Participant##input" "P1";;
                    type_text "Session ID##input" "S1")
                     (connected_world {["P1_S1.csv" := old_file]})))
           "P1" "S1" old_file eq_refl eq_refl
           ltac:(discriminate) ltac:(discriminate)
           eq_refl (conj eq_refl eq_refl)).
Defined.

(** C9, on [amplitude_gui.py]: [endSession_callback] writes the file and
    resets two flags, and that is all it resets.  The stored amplitudes and
    measures, their count, the last reported amplitude and the stimulation
    status stay as they were, and the identity inputs are left as the
    session start disabled them. *)
Theorem endSession_keeps_records (w : World Interface) name :
  filename (iface w) = Some name ->
  aligned (iface w) ->
  exists w', endSession_callback w = Done tt w'
    /\ is_Some (fs w' !! name)
    /\ amplitudes (iface w') = amplitudes (iface w)
    /\ measures (iface w') = measures (iface w)
    /\ num_measures (iface w') = num_measures (iface w)
    /\ current_amplitude (iface w') = current_amplitude (iface w)
    /\ stimulation_on w' = stimulation_on w
    /\ (forall tag, In tag identity_inputs ->
          enabled (gui w') tag = enabled (gui w) tag).
Proof.
  intros Hname Hal.
  destruct (endSession_writes w name Hname Hal)
    as (w' & Hrun & Hfs & Ha & Hm & Hn & Hc & _ & Hid & Hstim & _).
  exists w'. repeat split; try done.
  rewrite Hfs, lookup_insert_eq. eauto.
Qed.

(** A first session in which one pair is saved, up to the click on
    "End session". *)
Definition one_measure_session (p s : string) (a m : Z) : Cmd :=
  click "Connect" connect_callback;;
  type_text "Participant##input" p;;
  type_text "Session ID##input" s;;
  click "Start session" startSession_callback;;
  click "Send" send_waveform_callback;;
  type_int "Amplitude##input" a;;
  type_int "Measurement##input" m;;
  click "Save measure" add_measure_callback.

Definition before_end : World Interface :=
  final (one_measure_session "P1" "S1" 10 5 (world_init ∅ true (fun _ => 0%nat))).

Lemma endSession_keeps_records_witness :
  measures (iface before_end) = [5]
  /\ enabled (gui before_end) "Participant##input" = false
  /\ exists w', endSession_callback before_end = Done tt w'
    /\ is_Some (fs w' !! "P1_S1.csv")
    /\ amplitudes (iface w') = amplitudes (iface before_end)
    /\ measures (iface w') = measures (iface before_end)
    /\ num_measures (iface w') = num_measures (iface before_end)
    /\ current_amplitude (iface w') = current_amplitude (iface before_end)
    /\ stimulation_on w' = stimulation_on before_end
    /\ (forall tag, In tag identity_inputs ->
          enabled (gui w') tag = enabled (gui before_end) tag).
Proof.
  split; [reflexivity|]. split; [reflexivity|].
  apply (endSession_keeps_records before_end "P1_S1.csv");
    first [ reflexivity | (split; reflexivity) ].
Defined.

(** Two sessions in one process: the file of the second participant opens
    with the row saved for the first. *)
Example second_session_inherits_rows :
  let second : Cmd :=
    one_measure_session "P1" "S1" 10 5;;
    click "End session" endSession_callback;;
    click "Connect" connect_callback;;
    type_text "Participant##input" "P2";;
    click "Start session" startSession_callback;;
    click "Send" send_waveform_callback;;
    click "End session" endSession_callback in
  fs (final (second (world_init ∅ true (fun _ => 0%nat)))) !! "P2_S1.csv"
  = Some (dataset "P2" "S1" 30 0 0 0 [[FInt 10; FInt 5]]).
Proof. vm_compute. reflexivity. Qed.

(** ** The listener *)

(** A [str] never equals the [bytes] greeting, so that branch is dead. *)
Lemma greeting_never_matches (i : Interface) (val : string) :
  py_eq (PStr val) (PBytes (greeting i)) = false.
Proof. reflexivity. Qed.

(** A line with an "On" in it switches the stimulation status on. *)
Lemma handle_response_on (w : World Interface) response :
  utf8_valid response = true ->
  contains "On" (strip is_nul response) = true ->
  exists w', handle_response response w = Done tt w'
    /\ stimulation_on w' = true
    /\ iface w' = iface w.
Proof.
  intros Hv Hon. destruct w as [i g f up lg out r].
  unfold handle_response, start_stimulation_status. step_all.
  rewrite Hv. cbn [py_eq]. rewrite Hon.
  eexists; split; [reflexivity|]. by split.
Qed.

(** A line with an "Off" and no "On" in it switches it off. *)
Lemma handle_response_off (w : World Interface) response :
  utf8_valid response = true ->
  contains "On" (strip is_nul response) = false ->
  contains "Off" (strip is_nul response) = true ->
  exists w', handle_response response w = Done tt w'
    /\ stimulation_on w' = false
    /\ iface w' = iface w.
Proof.
  intros Hv Hon Hoff. destruct w as [i g f up lg out r].
  unfold handle_response, stop_stimulation_status. step_all.
  rewrite Hv. cbn [py_eq]. rewrite Hon, Hoff.
  eexists; split; [reflexivity|]. by split.
Qed.

(** Any other line that parses as an integer becomes the current amplitude. *)
Lemma handle_response_amplitude (w : World Interface) response n :
  utf8_valid response = true ->
  contains "On" (strip is_nul response) = false ->
  contains "Off" (strip is_nul response) = false ->
  int_of_str (strip is_nul response) = Some n ->
  exists w', handle_response response w = Done tt w'
    /\ current_amplitude (iface w') = n
    /\ text (gui w') "##CurrentAmplitude" = pretty n
    /\ stimulation_on w' = stimulation_on w.
Proof.
  intros Hv Hon Hoff Hn. destruct w as [i g f up lg out r].
  unfold handle_response. step_all.
  rewrite Hv. cbn [py_eq]. rewrite Hon, Hoff, Hn.
  eexists; split; [reflexivity|]. by repeat split.
Qed.

(** A line that does not parse is dropped: only [print(val)] has happened. *)
Lemma handle_response_malformed (w : World Interface) response :
  utf8_valid response = true ->
  contains "On" (strip is_nul response) = false ->
  contains "Off" (strip is_nul response) = false ->
  int_of_str (strip is_nul response) = None ->
  handle_response response w
  = Done tt (with_stdout (strip is_nul response :: stdout w) w).
Proof.
  intros Hv Hon Hoff Hn. destruct w as [i g f up lg out r].
  unfold handle_response. step_all.
  rewrite Hv. cbn [py_eq]. by rewrite Hon, Hoff, Hn.
Qed.

(** The greeting itself is one such line: it is echoed like any other, and
    "Greeting received" is not printed. *)
Lemma handle_response_greeting (w : World Interface) :
  handle_response "Hello" w = Done tt (with_stdout ("Hello" :: stdout w) w).
Proof. by apply handle_response_malformed. Qed.

(** C8, on [amplitude_gui.py]: the decoding of a line stands outside the
    [try], so a line that is not UTF-8 raises out of [monitor_serial]: the
    pass ends with [UnicodeDecodeError], nothing of the world has changed,
    and the lines that follow are never handled. *)
Theorem listener_dies_on_undecodable_line (w : World Interface) response rest :
  ready (iface w) = true ->
  utf8_valid response = false ->
  handle_response response w = Raised UnicodeDecodeError w
  /\ monitor_serial (response :: rest) w = Raised UnicodeDecodeError w.
Proof.
  intros Hr Hv.
  assert (Hh : handle_response response w = Raised UnicodeDecodeError w).
  { destruct w as [i g f up lg out r]. unfold handle_response. step_all.
    by rewrite Hv. }
  split; [done|].
  assert (Hne : String.eqb response "" = false).
  { destruct response; [discriminate Hv | reflexivity]. }
  cbn [monitor_serial]. unfold monitor_pass.
  apply bind_raised. destruct w as [i g f up lg out r]. cbn in Hr.
  step_all. rewrite Hr, Hne. exact Hh.
Qed.

(** A world in which the listener is reading: one waveform has been sent. *)
Definition listening_world : World Interface :=
  final ((click "Connect" connect_callback;;
          click "Start session" startSession_callback;;
          click "Send" send_waveform_callback)
           (world_init ∅ true (fun _ => 0%nat))).

(** The byte [0xff] followed by a line feed. *)
Definition noise : string := String "255" (String "010" "").

Lemma listener_dies_on_undecodable_line_witness :
  handle_response noise listening_world = Raised UnicodeDecodeError listening_world
  /\ monitor_serial [noise; "On"; "7"] listening_world
     = Raised UnicodeDecodeError listening_world.
Proof.
  apply (listener_dies_on_undecodable_line listening_world noise ["On"; "7"]);
    reflexivity.
Defined.

(** ** The listener next to the callbacks *)

(** No callback but [endSession_callback] clears [interface.ready]. *)
Lemma run_op_ready (o : op) (w : World Interface) :
  o <> ClickEndSession ->
  ready (iface (final (run_op o w))) = true
  \/ ready (iface (final (run_op o w))) = ready (iface w).
Proof.
  intros Ho. destruct w as [i g f up lg out r].
  destruct o; try done; cbn [run_op];
    unfold connect_callback, startSession_callback, parseInputs,
      send_waveform_callback, stimulate_callback, start_stimulation,
      stop_stimulation, start_stimulation_status, stop_stimulation_status,
      add_measure_callback;
    step_all; branch; cbn; auto.
Qed.

(** Handling a line never touches [interface.ready]. *)
Lemma handle_response_ready (l : string) (w : World Interface) :
  ready (iface (final (handle_response l w))) = ready (iface w).
Proof.
  destruct w as [i g f up lg out r].
  unfold handle_response, start_stimulation_status, stop_stimulation_status.
  step_all. branch; cbn; auto.
Qed.

(** A read that has passed the test of [interface.ready] and now finds the
    flag cleared. *)
Definition in_flight (s : System) : nat :=
  match pc s with
  | AtRead => if ready (iface (world s)) then 0 else 1
  | _ => 0
  end.

Definition unready_read (e : event) (s : System) : nat :=
  if reads_line e s && negb (ready (iface (world s))) then 1 else 0.

Lemma step_budget (e : event) (s : System) :
  (unready_read e s + in_flight (sys_step e s)
   <= (if is_end e then 1 else 0) + in_flight s)%nat.
Proof.
  destruct s as [w p box]. destruct e as [o| l | |].
  - unfold unready_read, in_flight, reads_line. cbn [sys_step pc world inbox andb].
    destruct (is_end (Operator o)) eqn:He.
    + destruct p; [lia| |lia]. destruct (ready _), (ready _); lia.
    + assert (Ho : o <> ClickEndSession) by (intros ->; discriminate He).
      destruct p; [lia| |lia].
      destruct (run_op_ready o w Ho) as [H|H]; rewrite H; [lia|].
      destruct (ready _); lia.
  - unfold unready_read, in_flight, reads_line. cbn [sys_step pc world inbox andb is_end].
    destruct p; [lia| |lia]. destruct (ready _); lia.
  - unfold unready_read, in_flight, reads_line. cbn [sys_step pc world inbox is_end].
    destruct p as [| |e].
    + destruct (ready (iface w)) eqn:Hr; cbn [pc world andb]; rewrite ?Hr; lia.
    + destruct box as [|l rest].
      * cbn [pc world andb]. destruct (ready (iface w)); lia.
      * destruct ((if String.eqb l "" then skip else handle_response l) w);
          cbn [pc world andb negb]; destruct (ready (iface w)); cbn; lia.
    + cbn. lia.
  - unfold unready_read, in_flight, reads_line. cbn [sys_step pc world inbox andb is_end].
    destruct p; cbn [pc world]; try lia; destruct (ready _); lia.
Qed.

Lemma unready_reads_budget (evs : list event) (s : System) :
  (unready_reads evs s <= count_end evs + in_flight s)%nat.
Proof.
  revert s. induction evs as [|e evs IH]; intros s; cbn [unready_reads].
  - lia.
  - specialize (IH (sys_step e s)). pose proof (step_budget e s) as Hstep.
    unfold unready_read in Hstep. unfold count_end in *. rewrite filter_cons.
    case_decide as He.
    + apply Is_true_true in He. rewrite He in Hstep. cbn [length]. lia.
    + apply Is_true_false in He. rewrite He in Hstep. lia.
Qed.

(** The interleaving that gets past the test: the listener passes the test,
    the operator ends the session, a line arrives, the listener reads it. *)
Definition late_line_run : list event :=
  [ Operator ClickConnect;
    Operator (TypeText "Participant##input" "P1");
    Operator (TypeText "Session ID##input" "S1");
    Operator ClickStartSession; Operator ClickSend;
    Listener;
    Operator ClickEndSession;
    DeviceSends ("7" ++ String "013" (String "010" "")) ].

(** C10, as stated, fails: after these steps [interface.ready] is false and
    the next step of the listener reads the pending line and stores it as
    the current amplitude. *)
Lemma late_line_read_while_unready :
  let s := sys_run late_line_run (sys_init ∅ true (fun _ => 0%nat)) in
  ready (iface (world s)) = false
  /\ current_amplitude (iface (world s)) = 0
  /\ length (inbox s) = 1%nat
  /\ current_amplitude (iface (world (sys_step Listener s))) = 7
  /\ inbox (sys_step Listener s) = [].
Proof. vm_compute. by repeat split. Qed.

(** *** Until the first successful send *)

Lemma write_rows_iface (name : string) (idxs : list nat) (w : World Interface) :
  iface (final (write_rows name idxs w)) = iface w.
Proof.
  revert w. induction idxs as [|idx rest IH]; intros w; cbn [write_rows]; [done|].
  destruct w as [i g f up lg out r]. step_all. cbn [amplitudes measures].
  destruct (amplitudes i !! idx); step_all; [|done].
  destruct (measures i !! idx); step_all; [|done].
  exact (IH _).
Qed.

(** [endSession_callback] either raises before it has changed the interface
    record or leaves it with the two flags cleared. *)
Lemma endSession_iface (w : World Interface) :
  iface (final (endSession_callback w)) = iface w
  \/ iface (final (endSession_callback w))
     = set_ready false (set_connected false (iface w)).
Proof.
  destruct w as [i g f up lg out r]. unfold endSession_callback. step_all.
  destruct (filename i) as [name|]; step_all; [|by left].
  match goal with
  | |- context [write_rows ?n ?l ?w0] =>
      pose proof (write_rows_iface n l w0) as Hw; destruct (write_rows n l w0)
  end; match goal with s : World Interface |- _ => destruct s end;
    cbn in *; subst; auto.
Qed.

(** No action of the operator but "Send" sets [interface.ready]. *)
Lemma run_op_stays_unready (o : op) (w : World Interface) :
  o <> ClickSend ->
  ready (iface w) = false ->
  ready (iface (final (run_op o w))) = false.
Proof.
  intros Ho Hr. destruct o; try done; cbn [run_op].
  all: try (destruct w as [i g f up lg out r]; cbn in Hr;
            unfold connect_callback, startSession_callback, parseInputs,
              stimulate_callback, start_stimulation, stop_stimulation,
              start_stimulation_status, stop_stimulation_status, add_measure_callback;
            step_all; branch; cbn; by auto).
  unfold click. destruct (enabled _ _); [|done].
  destruct (endSession_iface w) as [-> | ->]; [done|]. by destruct (iface w).
Qed.

(** A "Send" that is ignored or that raises leaves the flag as it was. *)
Lemma failed_send_ready (w : World Interface) :
  enabled (gui w) "Send" && returned (send_waveform_callback w) = false ->
  ready (iface (final (click "Send" send_waveform_callback w))) = ready (iface w).
Proof.
  destruct w as [i g f up lg out r]. unfold click, send_waveform_callback.
  step_all. intros H. branch; cbn in *; try done.
Qed.

(** A click on "Send" whose callback returns: a successful
    [send_waveform]. *)
Definition successful_send (e : event) (s : System) : bool :=
  match e with
  | Operator ClickSend =>
      enabled (gui (world s)) "Send" && returned (send_waveform_callback (world s))
  | _ => false
  end.

(** How many successful sends and how many reads of a line a run holds. *)
Fixpoint sends (evs : list event) (s : System) : nat :=
  match evs with
  | [] => 0
  | e :: rest => ((if successful_send e s then 1 else 0) + sends rest (sys_step e s))%nat
  end.

Fixpoint reads (evs : list event) (s : System) : nat :=
  match evs with
  | [] => 0
  | e :: rest => ((if reads_line e s then 1 else 0) + reads rest (sys_step e s))%nat
  end.

(** The clicks on "End session" that find [interface.ready] set. *)
Fixpoint ends_while_ready (evs : list event) (s : System) : nat :=
  match evs with
  | [] => 0
  | e :: rest =>
      ((if is_end e && ready (iface (world s)) then 1 else 0)
       + ends_while_ready rest (sys_step e s))%nat
  end.

(** The listener is waiting at its test and the flag is not set. *)
Definition quiet (s : System) : Prop :=
  ready (iface (world s)) = false /\ pc s = AtCheck.

Lemma quiet_step (e : event) (s : System) :
  quiet s -> successful_send e s = false ->
  quiet (sys_step e s) /\ reads_line e s = false.
Proof.
  intros [Hr Hp] Hs. destruct s as [w p box]. cbn [world pc] in *. subst p.
  destruct e as [o|l| |].
  - split; [|done]. split; [|done]. cbn [sys_step world pc inbox].
    destruct o; try (by apply run_op_stays_unready).
    cbn [run_op]. rewrite failed_send_ready; [done|exact Hs].
  - done.
  - cbn. by rewrite Hr.
  - done.
Qed.

Lemma quiet_run (evs : list event) (s : System) :
  quiet s -> sends evs s = 0%nat ->
  reads evs s = 0%nat /\ quiet (sys_run evs s).
Proof.
  revert s. induction evs as [|e evs IH]; intros s Hq Hs; [done|].
  cbn [sends] in Hs. destruct (successful_send e s) eqn:He; [lia|].
  destruct (quiet_step e s Hq He) as [Hq' Hread].
  cbn [reads sys_run foldl]. rewrite Hread. apply IH; [done|lia].
Qed.

Lemma step_budget_ready (e : event) (s : System) :
  (unready_read e s + in_flight (sys_step e s)
   <= (if is_end e && ready (iface (world s)) then 1 else 0) + in_flight s)%nat.
Proof.
  pose proof (step_budget e s) as H.
  destruct (is_end e) eqn:He; [|by rewrite andb_false_l].
  destruct (ready (iface (world s))) eqn:Hr; [done|]. cbn [andb].
  destruct e as [o| | |]; try done. destruct o; try done.
  destruct s as [w p box]. cbn [world] in Hr.
  pose proof (run_op_stays_unready ClickEndSession w ltac:(done) Hr) as Hr'.
  unfold unready_read, in_flight, reads_line.
  cbn [sys_step world pc inbox andb]. rewrite Hr', Hr. destruct p; lia.
Qed.

Lemma unready_reads_budget_ready (evs : list event) (s : System) :
  (unready_reads evs s <= ends_while_ready evs s + in_flight s)%nat.
Proof.
  revert s. induction evs as [|e evs IH]; intros s;
    cbn [unready_reads ends_while_ready]; [lia|].
  specialize (IH (sys_step e s)). pose proof (step_budget_ready e s) as Hstep.
  unfold unready_read in Hstep. lia.
Qed.

(** C10, amended: a pass of the listener that tests [interface.ready] and
    finds it false reads nothing and changes nothing.  From the start of
    the process until the first successful send of a waveform the flag is
    false and the listener reads no line at all.  After that the test and
    the read are separate steps: in every run the lines read while the
    flag is false are at most as many as the clicks on "End session" that
    found the flag set -- per such click at most the one read that had
    already passed the test. *)
Theorem listener_gated_by_ready (files : FS) (up : bool) (draws : nat -> nat)
    (evs : list event) :
  (unready_reads evs (sys_init files up draws) <= count_end evs)%nat
  /\ (forall s, pc s = AtCheck -> ready (iface (world s)) = false ->
       sys_step Listener s = s)
  /\ (sends evs (sys_init files up draws) = 0%nat ->
      reads evs (sys_init files up draws) = 0%nat
      /\ ready (iface (world (sys_run evs (sys_init files up draws)))) = false
      /\ pc (sys_run evs (sys_init files up draws)) = AtCheck)
  /\ (unready_reads evs (sys_init files up draws)
      <= ends_while_ready evs (sys_init files up draws))%nat.
Proof.
  split.
  { pose proof (unready_reads_budget evs (sys_init files up draws)) as H.
    unfold in_flight in H. cbn in H. lia. }
  split.
  { intros [w p box] Hp Hr. cbn in *. subst p. by rewrite Hr. }
  split.
  { intros Hs. destruct (quiet_run evs (sys_init files up draws)) as (Hr & Hq & Hp);
      [by split|done|]. done. }
  pose proof (unready_reads_budget_ready evs (sys_init files up draws)) as H.
  unfold in_flight in H. cbn in H. lia.
Qed.

End AmplitudeFacts.

(** * Facts about [hypoglossal_gui.py] *)

Module HypoglossalFacts.
Import Hypoglossal.

(** ** The administration order *)

Lemma swap_Permutation (i j : nat) (l : list nat) : swap i j l ≡ₚ l.
Proof.
  unfold swap. destruct (l !! i) as [a|] eqn:Hi; [|done].
  destruct (l !! j) as [b|] eqn:Hj; [|done].
  by apply (Permutation_insert_swap l j i b a).
Qed.

Lemma fisher_yates_Permutation (i : nat) (draw : nat -> nat) (l : list nat) :
  fisher_yates i draw l ≡ₚ l.
Proof.
  revert l. induction i as [|i IH]; intros l; cbn [fisher_yates]; [done|].
  by rewrite IH, swap_Permutation.
Qed.

Lemma shuffle_Permutation (draw : nat -> nat) (l : list nat) : shuffle draw l ≡ₚ l.
Proof. apply fisher_yates_Permutation. Qed.

Lemma length_tile {A} (base : list A) (reps : nat) :
  length (tile base reps) = (length base * reps)%nat.
Proof.
  unfold tile. induction reps as [|r IH]; [cbn; lia|].
  change (mjoin (replicate (S r) base)) with (base ++ mjoin (replicate r base))%list.
  rewrite length_app, IH. lia.
Qed.

(** The interface is created with the canonical indices in ascending order. *)
Lemma make_Interface_canonical (base : list float) (reps : nat) :
  multipliers (make_Interface base reps) = seq 0 (length base * reps)
  /\ NUM_MEASURES (make_Interface base reps) = (length base * reps)%nat
  /\ length (measures (make_Interface base reps)) = (length base * reps)%nat
  /\ length (multiplier_values (make_Interface base reps)) = (length base * reps)%nat.
Proof.
  cbn. rewrite length_replicate, length_tile. done.
Qed.

(** What [startSession_callback] leaves in [interface.multipliers]: the
    shuffled order when the inputs were accepted, the old order otherwise. *)
Lemma startSession_order (w : World Interface) :
  multipliers (iface (final (startSession_callback w))) = multipliers (iface w)
  \/ multipliers (iface (final (startSession_callback w)))
     = shuffle (rng w) (multipliers (iface w)).
Proof.
  destruct w as [i g f up lg out r].
  unfold startSession_callback, parseInputs, attribute, np_random_shuffle.
  step_all. branch; cbn; auto.
Qed.

(** C4: the order [startSession_callback] leaves in [interface.multipliers]
    holds every canonical index [0 .. N*R-1] exactly once, for every table
    of [N] multipliers and every repeat count [R]: the interface is created
    with the ascending order, and a start over any order that is a
    permutation of the canonical indices leaves one, whether it shuffled
    (inputs accepted) or not. *)
Theorem startSession_order_is_permutation (base : list float) (reps : nat)
    (w : World Interface) :
  multipliers (iface w) ≡ₚ seq 0 (length base * reps) ->
  let order := multipliers (iface (final (startSession_callback w))) in
  multipliers (make_Interface base reps) = seq 0 (length base * reps)
  /\ order ≡ₚ seq 0 (length base * reps)
  /\ NoDup order
  /\ length order = (length base * reps)%nat
  /\ (forall c, c ∈ order <-> (c < length base * reps)%nat).
Proof.
  intros Hw order.
  assert (Hp : order ≡ₚ seq 0 (length base * reps)).
  { subst order. destruct (startSession_order w) as [->| ->]; [done|].
    by rewrite shuffle_Permutation. }
  split; [apply make_Interface_canonical|]. split; [done|].
  split; [rewrite Hp; apply NoDup_seq|].
  split; [by rewrite Hp, length_seq|].
  intros c. rewrite Hp, elem_of_seq. lia.
Qed.

(** The form once the operator has connected and entered a participant. *)
Definition ready_to_start (draws : nat -> nat) : World Interface :=
  final ((click "Connect" connect_callback;;
          type_text "Participant##input" "P1")
           (world_init ∅ true draws)).

Lemma startSession_order_is_permutation_witness :
  let order :=
    multipliers (iface (final (startSession_callback (ready_to_start (fun _ => 0%nat))))) in
  multipliers (make_Interface base_multipliers 3) = seq 0 (9 * 3)
  /\ order ≡ₚ seq 0 (9 * 3)
  /\ NoDup order
  /\ length order = (9 * 3)%nat
  /\ (forall c, c ∈ order <-> (c < 9 * 3)%nat).
Proof.
  exact (startSession_order_is_permutation base_multipliers 3
           (ready_to_start (fun _ => 0%nat)) (Permutation_refl _)).
Defined.

(** ** Truncation and floor of a product that is not negative *)

Definition sf_not_negative (x : spec_float) : Prop :=
  match x with S754_finite true _ _ => False | _ => True end.

Lemma binary_round_aux_not_negative (mx ex : Z) (lx : location) :
  sf_not_negative (binary_round_aux prec emax false mx ex lx).
Proof.
  unfold binary_round_aux.
  destruct (shr_fexp _ _ _ _ _) as [m1 e1].
  destruct (shr_fexp _ _ _ _ _) as [m2 e2].
  destruct (shr_m m2); [done| |done]. by destruct (_ <=? _).
Qed.

Lemma float_of_Z_not_negative (z : Z) :
  0 <= z -> sf_not_negative (Prim2SF (float_of_Z z)).
Proof.
  intros Hz. unfold float_of_Z. destruct (z <? 0) eqn:E; [lia|].
  rewrite of_uint63_spec. unfold binary_normalize.
  pose proof (Uint63.to_Z_bounded (Uint63.of_Z z)) as Hb.
  destruct (Uint63.to_Z (Uint63.of_Z z)); [done| |lia].
  unfold binary_round. destruct (shl_align _ _ _).
  apply binary_round_aux_not_negative.
Qed.

Lemma leb_zero_not_negative (m : float) :
  (0 <=? m)%float = true -> sf_not_negative (Prim2SF m).
Proof.
  rewrite FloatAxioms.leb_spec. change (Prim2SF 0) with (S754_zero false).
  by destruct (Prim2SF m) as [| | |[] ? ?].
Qed.

Lemma mul_not_negative (x y : float) :
  sf_not_negative (Prim2SF x) -> sf_not_negative (Prim2SF y) ->
  sf_not_negative (Prim2SF (x * y)).
Proof.
  rewrite FloatAxioms.mul_spec. unfold SF64mul, SFmul.
  destruct (Prim2SF x) as [sx|sx| |[] mx ex], (Prim2SF y) as [sy|sy| |[] my ey];
    cbn; try done.
  intros _ _. apply binary_round_aux_not_negative.
Qed.

Lemma trunc_is_floor (x : spec_float) :
  sf_not_negative x -> sf_trunc x = sf_floor x.
Proof. destruct x as [| | |[] m e]; cbn; try done. by destruct e. Qed.

(** [int(threshold * multiplier)] is the floor of the product when neither
    factor is negative. *)
Lemma int_is_floor (threshold : Z) (m : float) :
  0 <= threshold -> (0 <=? m)%float = true ->
  int_of_float (float_of_Z threshold * m) = floor_of_float (float_of_Z threshold * m).
Proof.
  intros Ht Hm. unfold int_of_float, floor_of_float.
  rewrite trunc_is_floor; [done|].
  auto using mul_not_negative, float_of_Z_not_negative, leb_zero_not_negative.
Qed.

(** ** The file [endSession_callback] writes *)

(** The arrays keep the length [Interface.__init__] gave them. *)
Definition sized (i : Interface) : Prop :=
  length (measures i) = NUM_MEASURES i
  /\ length (multiplier_values i) = NUM_MEASURES i.

(** The six lines before the trial rows. *)
Definition preamble (participant session : string) (ag : Z) (sx : string)
    (baseline threshold_current threshold_measure : Z) : list line :=
  [ [FText "Participant ID"; FText "session ID"; FText "age"; FText "sex"];
    [FText participant; FText session; FInt ag; FText sx];
    [];
    [FText "Amplitude"; FText "multiplier"; FText "measure"];
    [FText "0"; FText "0.0"; FInt baseline];
    [FInt threshold_current; FText "1.0"; FInt threshold_measure] ].

(** The row of canonical index [idx]. *)
Definition row_at (i : Interface) (threshold_current : Z) (idx : nat) : line :=
  trial_row threshold_current
    (default 0%float (multiplier_values i !! idx))
    (default 0%float (measures i !! idx)).

Definition trial_rows (i : Interface) (threshold_current : Z) : list line :=
  map (row_at i threshold_current) (seq 0 (NUM_MEASURES i)).

Lemma trial_rows_written name threshold idxs (w : World Interface) old :
  fs w !! name = Some old ->
  Forall (fun idx => (idx < length (measures (iface w)))%nat
                     /\ (idx < length (multiplier_values (iface w)))%nat) idxs ->
  write_rows name threshold idxs w
  = Done tt (with_fs (<[name := (old ++ map (row_at (iface w) threshold) idxs)%list]>
                        (fs w)) w).
Proof.
  revert w old. induction idxs as [|idx rest IH]; intros w old Hold Hall.
  - cbn. rewrite app_nil_r, insert_id by done. by rewrite with_fs_same.
  - apply Forall_cons in Hall as [[Hv Hm] Hrest].
    destruct (lookup_lt_is_Some_2 _ _ Hv) as [v Hlv].
    destruct (lookup_lt_is_Some_2 _ _ Hm) as [m Hlm].
    cbn [write_rows]. destruct w as [i g f up lg out r]. cbn in *.
    step. unfold index. rewrite Hlv, Hlm. step. rewrite Hold.
    cbn [default from_option id].
    rewrite (IH _ (old ++ [trial_row threshold m v])%list); cbn.
    + unfold row_at. rewrite Hlv, Hlm. cbn [default from_option id].
      by rewrite insert_insert_eq, <- app_assoc.
    + by rewrite lookup_insert_eq.
    + done.
Qed.

(** What [endSession_callback] writes and what it resets. *)
Lemma endSession_file (w : World Interface) name t :
  sessionType (iface w) = Some t ->
  filename (iface w) = Some name ->
  sized (iface w) ->
  exists w', endSession_callback w = Done tt w'
    /\ fs w' = <[name := (preamble (text (gui w) "Participant##input") t
                             (int_in (gui w) "Age##input")
                             (text (gui w) "Sex##input")
                             (int_in (gui w) "Baseline (mm)##input")
                             (int_in (gui w) "Tolerance threshold (mA)##input")
                             (int_in (gui w) "Measurement (mm)##input")
                           ++ trial_rows (iface w)
                                (int_in (gui w) "Tolerance threshold (mA)##input"))%list]>
                (fs w)
    /\ measures (iface w') = measures (iface w)
    /\ multipliers (iface w') = multipliers (iface w)
    /\ amplitude_id (iface w') = amplitude_id (iface w)
    /\ connected (iface w') = false
    /\ ready (iface w') = false
    /\ calibrated (iface w') = false
    /\ (forall tag, In tag identity_inputs ->
          enabled (gui w') tag = enabled (gui w) tag)
    /\ enabled (gui w') "Connect" = true
    /\ state_of w' = Disconnected.
Proof.
  intros Ht Hname [Hv Hm]. destruct w as [i g f up lg out r]. cbn in *.
  unfold endSession_callback, attribute. step. rewrite Ht, Hname. step.
  rewrite !lookup_insert_eq, !insert_insert_eq. cbn [default from_option id app].
  erewrite trial_rows_written;
    [| cbn; apply lookup_insert_eq
     | apply Forall_forall; intros x Hx%elem_of_seq; cbn; lia].
  step. rewrite insert_insert_eq. cbn [app].
  eexists; split; [reflexivity|]. cbn. repeat split; try done.
  intros tag Htag. cbn in Htag.
  repeat (destruct Htag as [<-|Htag]; [reflexivity|]). done.
Qed.

Lemma length_trial_rows (i : Interface) (threshold : Z) :
  length (trial_rows i threshold) = NUM_MEASURES i.
Proof. unfold trial_rows. by rewrite length_map, length_seq. Qed.

Lemma lookup_trial_rows (i : Interface) (threshold : Z) (c : nat) :
  (c < NUM_MEASURES i)%nat ->
  trial_rows i threshold !! c = Some (row_at i threshold c).
Proof.
  intros Hc. unfold trial_rows.
  by rewrite list_lookup_fmap, lookup_seq_lt.
Qed.

(** The order of administration and the number of trials recorded have no
    part in the rows. *)
Lemma trial_rows_order (i : Interface) (threshold : Z) (order : list nat) (k : nat) :
  trial_rows (set_multipliers order (set_amplitude_id k i)) threshold
  = trial_rows i threshold.
Proof. reflexivity. Qed.

(** A session that is started and ended with no trial recorded. *)
Definition unrecorded_session : World Interface :=
  final ((click "Connect" connect_callback;;
          type_text "Participant##input" "P1";;
          click "Start session" startSession_callback;;
          click "End session" endSession_callback)
           (world_init ∅ true (fun k => k))).

(** C3, as stated, fails on [hypoglossal_gui.py]: with no trial recorded
    the file still holds 27 data rows. *)
Lemma rows_written_without_trials :
  amplitude_id (iface unrecorded_session) = 0%nat
  /\ exists rows,
       fs unrecorded_session !! "P1_hyomental.csv"
       = Some (preamble "P1" "hyomental" 30 "Male" 0 0 0 ++ rows)%list
       /\ length rows = 27%nat.
Proof.
  split; [reflexivity|]. eexists. split; [vm_compute; reflexivity|reflexivity].
Qed.

(** *** The amplitude column *)

(** [int(threshold_current * multiplier)] described without the two
    conversions of this file: the integer is rounded to binary64, the
    product of the two binary64 numbers is rounded to binary64, and the
    result is rounded down. *)
Lemma amplitude_is_floor_of_rounded_product (threshold : Z) (m : float) :
  0 <= threshold < 2 ^ 31 -> (0 <=? m)%float = true ->
  int_of_float (float_of_Z threshold * m)
  = default 0 (sf_floor (SF64mul (binary_normalize prec emax threshold 0 false)
                           (Prim2SF m))).
Proof.
  intros [Ht Hlt] Hm. rewrite int_is_floor by done. unfold floor_of_float.
  rewrite FloatAxioms.mul_spec. unfold float_of_Z.
  destruct (threshold <? 0) eqn:E; [lia|].
  rewrite of_uint63_spec, Uint63.of_Z_spec.
  rewrite Z.mod_small; [done|]. split; [done|].
  apply Z.lt_trans with (2 ^ 31); [done | reflexivity].
Qed.

(** The thresholds up to 1000 at which the product with 0.7 is rounded
    to a binary64 just below a whole number. *)
Definition rounded_below (threshold : Z) (k : nat) : bool :=
  (k =? 6)%nat
  && existsb (Z.eqb threshold)
       [90; 170; 180; 330; 340; 350; 360; 650; 660; 670; 680; 690; 700; 710; 720; 730].

(** The amplitude in decimal terms, for the [k]-th of the multipliers
    0.1, ..., 0.9 (counted from 0). *)
Definition decimal_amplitude (threshold : Z) (k : nat) : Z :=
  threshold * (Z.of_nat k + 1) / 10 - (if rounded_below threshold k then 1 else 0).

Definition amplitude_table_checked : bool :=
  forallb (fun t =>
     forallb (fun k =>
        match base_multipliers !! k with
        | Some m => int_of_float (float_of_Z (Z.of_nat t) * m) =? decimal_amplitude (Z.of_nat t) k
        | None => false
        end) (seq 0 9)) (seq 0 1001).

Lemma amplitude_table (threshold : Z) (k : nat) (m : float) :
  0 <= threshold <= 1000 -> base_multipliers !! k = Some m ->
  int_of_float (float_of_Z threshold * m) = decimal_amplitude threshold k.
Proof.
  intros Ht Hk.
  assert (Hall : amplitude_table_checked = true) by (vm_compute; reflexivity).
  unfold amplitude_table_checked in Hall.
  rewrite forallb_forall in Hall.
  assert (Hin : In (Z.to_nat threshold) (seq 0 1001)) by (apply in_seq; lia).
  apply Hall in Hin. rewrite forallb_forall in Hin.
  assert (Hkin : In k (seq 0 9)).
  { apply in_seq. apply lookup_lt_Some in Hk. cbn in Hk. lia. }
  apply Hin in Hkin. rewrite Hk, Z2Nat.id in Hkin by lia.
  by apply Z.eqb_eq.
Qed.

(** A session in which the threshold entered is 90 mA. *)
Definition threshold_90 : World Interface :=
  final ((click "Connect" connect_callback;;
          type_text "Participant##input" "P1";;
          click "Start session" startSession_callback;;
          click "Load" send_waveform_callback;;
          type_int "Tolerance threshold (mA)##input" 90)
           (world_init ∅ true (fun k => k))).

(** C6, as stated, fails: with a threshold of 90 the row of the multiplier
    0.7 has the amplitude 62, while the floor of 90 x 0.7 is 63.  Nor is
    the amplitude the floor of the exact product with the binary64 number
    that stands for the multiplier: with a threshold of 10 and the
    multiplier 0.3 it is 3, and that floor is 2. *)
Lemma amplitude_62_at_threshold_90 :
  (exists head rows,
     fs (final (endSession_callback threshold_90)) !! "P1_hyomental.csv"
     = Some (head ++ rows)%list
     /\ length head = 6%nat
     /\ head !! 5%nat = Some [FInt 90; FText "1.0"; FInt 0]
     /\ rows !! 6%nat = Some [FInt 62; FFloat 0.7; FFloat 0])
  /\ 90 * 7 / 10 = 63
  /\ trial_row 10 0.3 0 = [FInt 3; FFloat 0.3; FFloat 0]
  /\ match Prim2SF 0.3 with
     | S754_finite false m (Zneg p) => 10 * Z.pos m / 2 ^ Z.pos p = 2
     | _ => False
     end.
Proof.
  split.
  { eexists (preamble "P1" "hyomental" 30 "Male" 0 90 0), _.
    split; [vm_compute; reflexivity|]. by repeat split. }
  split; [reflexivity|]. split; [vm_compute; reflexivity|].
  vm_compute. reflexivity.
Qed.

(** C6, amended: the file of the calibration-based variant.  After the
    identity header and the column header come the baseline row (amplitude
    0, multiplier 0.0), the threshold row (multiplier 1.0) and one row per
    canonical index.  The amplitude of a trial row is
    [int(threshold * multiplier)] in binary64 arithmetic: with a threshold
    and a multiplier that are not negative, the threshold is rounded to
    binary64, the product is rounded to binary64, and the result is rounded
    down.  For the multipliers 0.1, ..., 0.9 of the code and a threshold of
    at most 1000 that is the floor of threshold x (k+1) / 10, except at the
    multiplier 0.7 for the thresholds 90, 170, 180, 330 to 360 and 650 to
    730 in steps of ten, where it is one less.  (The file is taken to be
    one that [open] can create.) *)
Theorem calibration_file_layout (w : World Interface) name t :
  sessionType (iface w) = Some t ->
  filename (iface w) = Some name ->
  sized (iface w) ->
  0 <= int_in (gui w) "Tolerance threshold (mA)##input" < 2 ^ 31 ->
  Forall (fun m => (0 <=? m)%float = true) (multiplier_values (iface w)) ->
  exists w' rows,
    endSession_callback w = Done tt w'
    /\ fs w' !! name
       = Some ([ [FText "Participant ID"; FText "session ID"; FText "age"; FText "sex"];
                 [FText (text (gui w) "Participant##input"); FText t;
                  FInt (int_in (gui w) "Age##input"); FText (text (gui w) "Sex##input")];
                 [];
                 [FText "Amplitude"; FText "multiplier"; FText "measure"];
                 [FText "0"; FText "0.0"; FInt (int_in (gui w) "Baseline (mm)##input")];
                 [FInt (int_in (gui w) "Tolerance threshold (mA)##input"); FText "1.0";
                  FInt (int_in (gui w) "Measurement (mm)##input")] ] ++ rows)%list
    /\ length rows = NUM_MEASURES (iface w)
    /\ (forall c m v,
          multiplier_values (iface w) !! c = Some m ->
          measures (iface w) !! c = Some v ->
          exists a,
            rows !! c = Some [FInt a; FFloat m; FFloat v]
            /\ a = default 0
                     (sf_floor
                        (SF64mul
                           (binary_normalize prec emax
                              (int_in (gui w) "Tolerance threshold (mA)##input") 0 false)
                           (Prim2SF m)))
            /\ (forall k,
                  int_in (gui w) "Tolerance threshold (mA)##input" <= 1000 ->
                  base_multipliers !! k = Some m ->
                  a = decimal_amplitude
                        (int_in (gui w) "Tolerance threshold (mA)##input") k)).
Proof.
  intros Ht Hname Hsz Hthr Hpos.
  destruct (endSession_file w name t Ht Hname Hsz) as (w' & Hrun & Hfs & _).
  exists w', (trial_rows (iface w) (int_in (gui w) "Tolerance threshold (mA)##input")).
  split; [done|]. split; [by rewrite Hfs, lookup_insert_eq|].
  split; [apply length_trial_rows|].
  intros c m v Hm Hv. eexists. split.
  { rewrite lookup_trial_rows
      by (destruct Hsz as [_ <-]; by apply lookup_lt_Some with m).
    unfold row_at, trial_row. rewrite Hm, Hv. reflexivity. }
  split.
  - apply amplitude_is_floor_of_rounded_product; [done|].
    rewrite Forall_forall in Hpos. apply Hpos. by apply list_elem_of_lookup_2 with c.
  - intros k Hle Hk. apply amplitude_table; [lia | done].
Qed.

Lemma calibration_file_layout_witness :
  exists w' rows,
    endSession_callback threshold_90 = Done tt w'
    /\ fs w' !! "P1_hyomental.csv"
       = Some ([ [FText "Participant ID"; FText "session ID"; FText "age"; FText "sex"];
                 [FText (text (gui threshold_90) "Participant##input");
                  FText "hyomental";
                  FInt (int_in (gui threshold_90) "Age##input");
                  FText (text (gui threshold_90) "Sex##input")];
                 [];
                 [FText "Amplitude"; FText "multiplier"; FText "measure"];
                 [FText "0"; FText "0.0";
                  FInt (int_in (gui threshold_90) "Baseline (mm)##input")];
                 [FInt (int_in (gui threshold_90) "Tolerance threshold (mA)##input");
                  FText "1.0";
                  FInt (int_in (gui threshold_90) "Measurement (mm)##input")] ] ++ rows)%list
    /\ length rows = NUM_MEASURES (iface threshold_90)
    /\ (forall c m v,
          multiplier_values (iface threshold_90) !! c = Some m ->
          measures (iface threshold_90) !! c = Some v ->
          exists a,
            rows !! c = Some [FInt a; FFloat m; FFloat v]
            /\ a = default 0
                     (sf_floor
                        (SF64mul
                           (binary_normalize prec emax
                              (int_in (gui threshold_90)
                                 "Tolerance threshold (mA)##input") 0 false)
                           (Prim2SF m)))
            /\ (forall k,
                  int_in (gui threshold_90) "Tolerance threshold (mA)##input" <= 1000 ->
                  base_multipliers !! k = Some m ->
                  a = decimal_amplitude
                        (int_in (gui threshold_90) "Tolerance threshold (mA)##input") k)).
Proof.
  apply (calibration_file_layout threshold_90 "P1_hyomental.csv" "hyomental");
    [ vm_compute; reflexivity | vm_compute; reflexivity | split; vm_compute; reflexivity
    | vm_compute; split; [discriminate | reflexivity]
    | vm_compute; repeat constructor ].
Defined.

(** ** Recording the trials *)

(** Running a callback one statement at a time. *)
Ltac run :=
  step_all;
  cbn [enabled text int_in color gui_enable gui_text gui_int gui_color
       connected inputCheck ready calibrated num_repeats multiplier_values amplitude_id
       NUM_MEASURES multipliers measures current_amplitude greeting on off participantID
       sessionID sex age sessionType filename
       set_connected set_inputCheck set_ready set_calibrated set_amplitude_id
       set_multipliers set_measures set_current_amplitude set_identity set_sessionType
       set_filename].

(** What loading a waveform and recording a trial leave alone. *)
Definition kept (w w' : World Interface) : Prop :=
  fs w' = fs w
  /\ device_up w' = device_up w
  /\ multipliers (iface w') = multipliers (iface w)
  /\ multiplier_values (iface w') = multiplier_values (iface w)
  /\ NUM_MEASURES (iface w') = NUM_MEASURES (iface w)
  /\ length (measures (iface w')) = length (measures (iface w))
  /\ sessionType (iface w') = sessionType (iface w)
  /\ filename (iface w') = filename (iface w)
  /\ text (gui w') "Participant##input" = text (gui w) "Participant##input"
  /\ text (gui w') "Sex##input" = text (gui w) "Sex##input"
  /\ int_in (gui w') "Age##input" = int_in (gui w) "Age##input"
  /\ int_in (gui w') "Baseline (mm)##input" = int_in (gui w) "Baseline (mm)##input"
  /\ int_in (gui w') "Tolerance threshold (mA)##input"
     = int_in (gui w) "Tolerance threshold (mA)##input"
  /\ int_in (gui w') "Measurement (mm)##input" = int_in (gui w) "Measurement (mm)##input".

Lemma kept_refl (w : World Interface) : kept w w.
Proof. by repeat split. Qed.

Lemma kept_trans (w1 w2 w3 : World Interface) : kept w1 w2 -> kept w2 w3 -> kept w1 w3.
Proof. unfold kept. intros H1 H2. destruct_and!. repeat split; congruence. Qed.

(** One trial: the operator enters the measurement and clicks "Next". *)
Definition record (m : Z) : Cmd :=
  type_int "Measure (mm)##input" m;; click "Next" add_measure_callback.

Fixpoint record_all (ms : list Z) : Cmd :=
  match ms with
  | [] => skip
  | m :: rest => record m;; record_all rest
  end.

(** A trial that is not the last: the measurement is stored under the
    canonical index of the trial and the next amplitude is loaded. *)
Lemma record_next (w : World Interface) (m : Z) (c c' : nat) (mv : float) :
  enabled (gui w) "Measure (mm)##input" = true ->
  enabled (gui w) "Next" = true ->
  multipliers (iface w) !! amplitude_id (iface w) = Some c ->
  (c < length (measures (iface w)))%nat ->
  (S (amplitude_id (iface w)) < NUM_MEASURES (iface w))%nat ->
  multipliers (iface w) !! S (amplitude_id (iface w)) = Some c' ->
  multiplier_values (iface w) !! c' = Some mv ->
  device_up w = true ->
  calibrated (iface w) = true ->
  exists w', record m w = Done tt w'
    /\ kept w w'
    /\ calibrated (iface w') = true
    /\ measures (iface w') = <[c := float_of_Z m]> (measures (iface w))
    /\ amplitude_id (iface w') = S (amplitude_id (iface w))
    /\ current_amplitude (iface w') = int_of_float (float_of_Z 50 * mv)
    /\ dev_log w'
       = DSend "Wavelet" (int_of_float (float_of_Z 50 * mv)) 10000 :: dev_log w
    /\ overall_status w' = overall_status w
    /\ enabled (gui w') "Measure (mm)##input" = true
    /\ enabled (gui w') "Next" = true
    /\ enabled (gui w') "End session" = true.
Proof.
  intros Hin Hnext Hc Hlt Hmore Hc' Hmv Hup Hcal.
  destruct w as [i g f up lg out r]. cbn in *. subst up.
  unfold record, add_measure_callback, store_measure, trial_amplitude, send_waveform.
  run. rewrite Hin. run. rewrite Hnext, Hc. run.
  rewrite (bool_decide_eq_true_2 _ Hlt). run.
  rewrite (bool_decide_eq_true_2 _ Hmore). run.
  rewrite Hc'. run. rewrite Hmv. run. rewrite Hcal. run.
  eexists; split; [reflexivity|]. unfold kept. cbn.
  rewrite length_insert. by repeat split.
Qed.

(** The last trial: the measurement is stored, the controls are disabled
    and the end of the sequence is reported. *)
Lemma record_last (w : World Interface) (m : Z) (c : nat) :
  enabled (gui w) "Measure (mm)##input" = true ->
  enabled (gui w) "Next" = true ->
  multipliers (iface w) !! amplitude_id (iface w) = Some c ->
  (c < length (measures (iface w)))%nat ->
  ~ (S (amplitude_id (iface w)) < NUM_MEASURES (iface w))%nat ->
  exists w', record m w = Done tt w'
    /\ kept w w'
    /\ calibrated (iface w') = calibrated (iface w)
    /\ measures (iface w') = <[c := float_of_Z m]> (measures (iface w))
    /\ amplitude_id (iface w') = S (amplitude_id (iface w))
    /\ dev_log w' = dev_log w
    /\ overall_status w' = "Session complete"
    /\ enabled (gui w') "Measure (mm)##input" = false
    /\ enabled (gui w') "Next" = false
    /\ enabled (gui w') "End session" = true.
Proof.
  intros Hin Hnext Hc Hlt Hmore.
  destruct w as [i g f up lg out r]. cbn in *.
  unfold record, add_measure_callback, store_measure.
  run. rewrite Hin. run. rewrite Hnext, Hc. run.
  rewrite (bool_decide_eq_true_2 _ Hlt). run.
  rewrite (bool_decide_eq_false_2 _ Hmore). run.
  eexists; split; [reflexivity|]. unfold kept. cbn.
  rewrite length_insert. by repeat split.
Qed.

(** With every trial recorded there is no position left to read: the
    callback raises before it has changed anything. *)
Lemma add_measure_exhausted (w : World Interface) :
  (length (multipliers (iface w)) <= amplitude_id (iface w))%nat ->
  add_measure_callback w = Raised IndexError w.
Proof.
  intros Hk. destruct w as [i g f up lg out r]. cbn in *.
  unfold add_measure_callback. run.
  by rewrite (lookup_ge_None_2 _ _ Hk).
Qed.

(** A click on a disabled "Next" and typing into a disabled input do nothing. *)
Lemma record_disabled (w : World Interface) (m : Z) :
  enabled (gui w) "Measure (mm)##input" = false ->
  enabled (gui w) "Next" = false ->
  record m w = Done tt w.
Proof.
  intros Hin Hnext. destruct w as [i g f up lg out r]. cbn in *.
  unfold record. run. rewrite Hin. run. by rewrite Hnext.
Qed.

(** The measures once the trials of [order] have been given the
    measurements [ms], one after the other. *)
Fixpoint stored (order : list nat) (ms : list Z) (acc : list float) : list float :=
  match order, ms with
  | c :: order', m :: ms' => stored order' ms' (<[c := float_of_Z m]> acc)
  | _, _ => acc
  end.

Lemma stored_nil (order : list nat) (acc : list float) : stored order [] acc = acc.
Proof. by destruct order. Qed.

Lemma length_stored (order : list nat) (ms : list Z) (acc : list float) :
  length (stored order ms acc) = length acc.
Proof.
  revert ms acc. induction order as [|c order IH]; intros [|m ms] acc; cbn; try done.
  by rewrite IH, length_insert.
Qed.

Lemma stored_other (order : list nat) (ms : list Z) (acc : list float) (c : nat) :
  c ∉ order -> stored order ms acc !! c = acc !! c.
Proof.
  revert ms acc. induction order as [|c0 order IH]; intros [|m ms] acc Hc; cbn; try done.
  apply not_elem_of_cons in Hc as [Hne Hc].
  rewrite IH by done. by rewrite list_lookup_insert_ne.
Qed.

(** Each measurement ends under the canonical index of its trial. *)
Lemma stored_lookup (order : list nat) (ms : list Z) (acc : list float)
    (j c : nat) (m : Z) :
  NoDup order -> order !! j = Some c -> ms !! j = Some m ->
  (c < length acc)%nat ->
  stored order ms acc !! c = Some (float_of_Z m).
Proof.
  revert ms acc j.
  induction order as [|c0 order IH]; intros [|m0 ms] acc [|j] Hnd Hj Hm Hlt;
    cbn in *; try done.
  - injection Hj as ->. injection Hm as ->.
    apply NoDup_cons in Hnd as [Hnotin _].
    rewrite stored_other by done. by rewrite list_lookup_insert_eq.
  - apply NoDup_cons in Hnd as [_ Hnd].
    apply (IH ms _ j); try done. by rewrite length_insert.
Qed.

Lemma kept_sized (w w' : World Interface) :
  kept w w' -> sized (iface w) -> sized (iface w').
Proof.
  unfold kept, sized. intros H [H1 H2]. destruct_and!. split; congruence.
Qed.

(** Recording a run of trials, from any position of the sequence. *)
Lemma record_all_spec (ms : list Z) (w : World Interface) :
  sized (iface w) ->
  multipliers (iface w) ≡ₚ seq 0 (NUM_MEASURES (iface w)) ->
  calibrated (iface w) = true ->
  device_up w = true ->
  enabled (gui w) "Measure (mm)##input" = true ->
  enabled (gui w) "Next" = true ->
  (amplitude_id (iface w) + length ms <= NUM_MEASURES (iface w))%nat ->
  exists w', record_all ms w = Done tt w'
    /\ kept w w'
    /\ calibrated (iface w') = true
    /\ amplitude_id (iface w') = (amplitude_id (iface w) + length ms)%nat
    /\ measures (iface w')
       = stored (drop (amplitude_id (iface w)) (multipliers (iface w))) ms
           (measures (iface w))
    /\ ((amplitude_id (iface w') < NUM_MEASURES (iface w))%nat ->
        enabled (gui w') "Measure (mm)##input" = true
        /\ enabled (gui w') "Next" = true
        /\ overall_status w' = overall_status w)
    /\ (ms <> [] -> amplitude_id (iface w') = NUM_MEASURES (iface w) ->
        overall_status w' = "Session complete"
        /\ enabled (gui w') "Measure (mm)##input" = false
        /\ enabled (gui w') "Next" = false
        /\ enabled (gui w') "End session" = true).
Proof.
  revert w. induction ms as [|m rest IH]; intros w Hsz Hperm Hcal Hup Hin Hnext Hlen.
  - exists w. cbn. rewrite stored_nil, Nat.add_0_r.
    split; [done|]. split; [apply kept_refl|]. by repeat split.
  - cbn [length] in Hlen.
    pose proof Hsz as [Hlm Hlv].
    assert (Hlo : length (multipliers (iface w)) = NUM_MEASURES (iface w))
      by (by rewrite Hperm, length_seq).
    destruct (lookup_lt_is_Some_2 (multipliers (iface w)) (amplitude_id (iface w)))
      as [c Hc]; [lia|].
    assert (Hclt : (c < NUM_MEASURES (iface w))%nat).
    { apply list_elem_of_lookup_2 in Hc. rewrite Hperm in Hc.
      apply elem_of_seq in Hc. lia. }
    cbn [record_all].
    destruct (decide (S (amplitude_id (iface w)) < NUM_MEASURES (iface w))%nat)
      as [Hmore|Hmore].
    + destruct (lookup_lt_is_Some_2 (multipliers (iface w)) (S (amplitude_id (iface w))))
        as [c' Hc']; [lia|].
      assert (Hc'lt : (c' < NUM_MEASURES (iface w))%nat).
      { apply list_elem_of_lookup_2 in Hc'. rewrite Hperm in Hc'.
        apply elem_of_seq in Hc'. lia. }
      destruct (lookup_lt_is_Some_2 (multiplier_values (iface w)) c') as [mv Hmv]; [lia|].
      destruct (record_next w m c c' mv) as
        (w1 & Hrun & Hk & Hcal1 & Hms & Hid & _ & _ & Hst1 & Hin1 & Hnext1 & _);
        try done; [lia|].
      pose proof Hk as (_ & Hup1 & Hord1 & _ & Hnum1 & _).
      destruct (IH w1) as (w' & Hrun' & Hk' & Hcal' & Hid' & Hms' & Hopen & Hdone).
      { by apply (kept_sized w). }
      { by rewrite Hord1, Hnum1. }
      { done. }
      { by rewrite Hup1. }
      { done. }
      { done. }
      { rewrite Hid, Hnum1. lia. }
      exists w'. rewrite (bind_done _ _ _ _ _ Hrun).
      split; [done|]. split; [by apply (kept_trans w w1)|]. split; [done|].
      split; [rewrite Hid', Hid; cbn; lia|].
      split.
      { rewrite Hms', Hid, Hord1, Hms. by rewrite (drop_S _ _ _ Hc). }
      rewrite Hnum1 in Hopen, Hdone.
      split; [intros Hlt; destruct (Hopen Hlt) as (? & ? & ?); by rewrite <- Hst1|].
      intros _ Hend. destruct rest as [|m' rest'].
      * cbn in Hid'. lia.
      * by apply Hdone.
    + assert (rest = []) as -> by (destruct rest; [done|cbn in Hlen; lia]).
      destruct (record_last w m c) as
        (w1 & Hrun & Hk & Hcal1 & Hms & Hid & _ & Hst & Hin1 & Hnext1 & Hend1);
        try done; [lia|].
      exists w1. rewrite (bind_done _ _ _ _ _ Hrun). cbn [record_all].
      split; [done|]. split; [done|]. split; [congruence|].
      split; [rewrite Hid; cbn; lia|].
      split.
      { rewrite Hms, (drop_S _ _ _ Hc). cbn. by rewrite stored_nil. }
      split; [intros; lia|]. done.
Qed.

(** ** From the start of a session to the first trial *)

Lemma click_enabled {I} (tag : string) (callback : M I unit) (w : World I) :
  enabled (gui w) tag = true -> click tag callback w = callback w.
Proof. unfold click. by intros ->. Qed.

Lemma click_disabled {I} (tag : string) (callback : M I unit) (w : World I) :
  enabled (gui w) tag = false -> click tag callback w = Done tt w.
Proof. unfold click. by intros ->. Qed.

(** A start that is accepted: the file is named after the participant and
    the session type, the position is reset and the order is shuffled. *)
Lemma startSession_accepts (w : World Interface) (p s t : string) :
  text (gui w) "Participant##input" = p -> p <> "" ->
  text (gui w) "Session ID##input" = s ->
  (s = "Hyomental" /\ t = "hyomental" \/ s = "Tongue" /\ t = "tongue") ->
  fs w !! (p ++ "_" ++ t ++ ".csv") = None ->
  exists w', startSession_callback w = Done tt w'
    /\ inputCheck (iface w') = true
    /\ multipliers (iface w') = shuffle (rng w) (multipliers (iface w))
    /\ amplitude_id (iface w') = 0%nat
    /\ sessionType (iface w') = Some t
    /\ filename (iface w') = Some (p ++ "_" ++ t ++ ".csv")
    /\ state_of w' = SessionActive
    /\ overall_status w' = "Session started"
    /\ enabled (gui w') "Load" = true
    /\ enabled (gui w') "End session" = true
    /\ enabled (gui w') "Start session" = false
    /\ (forall tag, In tag identity_inputs -> enabled (gui w') tag = false)
    /\ fs w' = fs w
    /\ device_up w' = device_up w
    /\ multiplier_values (iface w') = multiplier_values (iface w)
    /\ NUM_MEASURES (iface w') = NUM_MEASURES (iface w)
    /\ measures (iface w') = measures (iface w)
    /\ calibrated (iface w') = calibrated (iface w)
    /\ text (gui w') "Participant##input" = p
    /\ text (gui w') "Sex##input" = text (gui w) "Sex##input"
    /\ int_in (gui w') = int_in (gui w).
Proof.
  intros Hp Hpne Hs Hst Hfs. destruct w as [i g f up lg out r]. cbn in *.
  unfold startSession_callback, parseInputs, attribute, np_random_shuffle.
  run. rewrite Hp, Hs. cbn [py_eq].
  rewrite (proj2 (String.eqb_neq p "") Hpne).
  destruct Hst as [[-> ->]|[-> ->]]; cbn [String.eqb Ascii.eqb Bool.eqb andb];
    run; rewrite Hfs; rewrite bool_decide_eq_false_2 by (by intros [? ?]); run;
    (eexists; split; [reflexivity|]); cbn; repeat split; try done;
    intros tag Htag; cbn in Htag;
    repeat (destruct Htag as [<-|Htag]; [reflexivity|]); done.
Qed.

(** A start that is refused leaves the form, the order and the files as
    they were, but for the message. *)
Lemma startSession_refuses (w : World Interface) (message : string) :
  text (gui w) "Participant##input" = "" /\ message = "Enter participant ID"
  \/ text (gui w) "Participant##input" <> ""
     /\ text (gui w) "Session ID##input" = "" /\ message = "Enter session ID" ->
  exists w', startSession_callback w = Done tt w'
    /\ inputCheck (iface w') = false
    /\ overall_status w' = message
    /\ state_of w' = state_of w
    /\ enabled (gui w') = enabled (gui w)
    /\ multipliers (iface w') = multipliers (iface w)
    /\ amplitude_id (iface w') = amplitude_id (iface w)
    /\ fs w' = fs w
    /\ rng w' = rng w.
Proof.
  intros H. destruct w as [i g f up lg out r]. cbn in *.
  unfold startSession_callback, parseInputs, attribute, np_random_shuffle.
  run. destruct H as [[Hp ->]|(Hp & Hs & ->)].
  - rewrite Hp. cbn [py_eq String.eqb]. run.
    eexists; split; [reflexivity|]. by repeat split.
  - cbn [py_eq]. rewrite (proj2 (String.eqb_neq _ "") Hp), Hs.
    cbn [String.eqb]. run.
    eexists; split; [reflexivity|]. by repeat split.
Qed.

(** A start whose file exists is refused as well, and the file is not
    touched. *)
Lemma startSession_refuses_existing_file (w : World Interface) (p s t : string) old :
  text (gui w) "Participant##input" = p -> p <> "" ->
  text (gui w) "Session ID##input" = s ->
  (s = "Hyomental" /\ t = "hyomental" \/ s = "Tongue" /\ t = "tongue") ->
  fs w !! (p ++ "_" ++ t ++ ".csv") = Some old ->
  exists w', startSession_callback w = Done tt w'
    /\ inputCheck (iface w') = false
    /\ overall_status w' = "File already exists"
    /\ state_of w' = state_of w
    /\ enabled (gui w') = enabled (gui w)
    /\ multipliers (iface w') = multipliers (iface w)
    /\ fs w' = fs w
    /\ rng w' = rng w.
Proof.
  intros Hp Hpne Hs Hst Hfs. destruct w as [i g f up lg out r]. cbn in *.
  unfold startSession_callback, parseInputs, attribute, np_random_shuffle.
  run. rewrite Hp, Hs. cbn [py_eq].
  rewrite (proj2 (String.eqb_neq p "") Hpne).
  destruct Hst as [[-> ->]|[-> ->]]; cbn [String.eqb Ascii.eqb Bool.eqb andb];
    run; rewrite Hfs; rewrite bool_decide_eq_true_2 by eauto; run;
    (eexists; split; [reflexivity|]); by repeat split.
Qed.

(** "Load" sends the wavelet and opens the calibration inputs. *)
Lemma load_ok (w : World Interface) :
  device_up w = true ->
  exists w', send_waveform_callback w = Done tt w'
    /\ kept w w'
    /\ calibrated (iface w') = calibrated (iface w)
    /\ amplitude_id (iface w') = amplitude_id (iface w)
    /\ measures (iface w') = measures (iface w)
    /\ ready (iface w') = true
    /\ dev_log w' = DSend "Wavelet" (current_amplitude (iface w)) 10000 :: dev_log w
    /\ enabled (gui w') "Done calibration" = true
    /\ enabled (gui w') "Load" = false
    /\ enabled (gui w') "Tolerance threshold (mA)##input" = true
    /\ enabled (gui w') "Next" = calibrated (iface w)
    /\ enabled (gui w') "End session" = true.
Proof.
  intros Hup. destruct w as [i g f up lg out r]. cbn in *. subst up.
  unfold send_waveform_callback, send_waveform. run.
  destruct (calibrated i) eqn:Hcal; run;
    (eexists; split; [reflexivity|]); unfold kept; cbn; rewrite ?Hcal;
    by repeat split.
Qed.

(** "Done calibration" loads the amplitude of the first trial and opens
    the recording of trials. *)
Lemma done_calibration_ok (w : World Interface) (c : nat) (mv : float) :
  multipliers (iface w) !! amplitude_id (iface w) = Some c ->
  multiplier_values (iface w) !! c = Some mv ->
  device_up w = true ->
  exists w', done_calibration_callback w = Done tt w'
    /\ kept w w'
    /\ calibrated (iface w') = true
    /\ amplitude_id (iface w') = amplitude_id (iface w)
    /\ measures (iface w') = measures (iface w)
    /\ current_amplitude (iface w') = int_of_float (float_of_Z 50 * mv)
    /\ dev_log w'
       = DSend "Wavelet" (int_of_float (float_of_Z 50 * mv)) 10000 :: dev_log w
    /\ enabled (gui w') "Next" = true
    /\ enabled (gui w') "Measure (mm)##input" = true
    /\ enabled (gui w') "Done calibration" = false
    /\ enabled (gui w') "End session" = true.
Proof.
  intros Hc Hmv Hup. destruct w as [i g f up lg out r]. cbn in *. subst up.
  unfold done_calibration_callback, trial_amplitude, send_waveform.
  run. rewrite Hc. run. rewrite Hmv. run.
  destruct (calibrated i) eqn:Hcal; run;
    (eexists; split; [reflexivity|]); unfold kept; cbn; rewrite ?Hcal;
    by repeat split.
Qed.

Lemma stored_take (order : list nat) (ms : list Z) (acc : list float) :
  stored (take (length ms) order) ms acc = stored order ms acc.
Proof.
  revert ms acc. induction order as [|c order IH]; intros [|m ms] acc; cbn; auto.
Qed.

(** [startSession_callback] leaves the stored measurements alone. *)
Lemma startSession_measures (w : World Interface) :
  measures (iface (final (startSession_callback w))) = measures (iface w).
Proof.
  destruct w as [i g f up lg out r].
  unfold startSession_callback, parseInputs, attribute, np_random_shuffle.
  step_all. branch; reflexivity.
Qed.

(** The form when the first trial is about to be recorded. *)
Definition trials_open (draws : nat -> nat) : World Interface :=
  final ((click "Connect" connect_callback;;
          type_text "Participant##input" "P1";;
          type_int "Age##input" 34;;
          click "Start session" startSession_callback;;
          click "Load" send_waveform_callback;;
          type_int "Tolerance threshold (mA)##input" 40;;
          click "Done calibration" done_calibration_callback)
           (world_init ∅ true draws)).

(** The same session once the first three trials have been recorded. *)
Definition trials_partly_recorded : World Interface :=
  final (record_all [11; 12; 13] (trials_open (fun _ => 0%nat))).

(** The session is one of those the theorem below speaks of. *)
Lemma trials_partly_recorded_run :
  amplitude_id (iface (trials_open (fun _ => 0%nat))) = 0%nat
  /\ sized (iface (trials_open (fun _ => 0%nat)))
  /\ multipliers (iface (trials_open (fun _ => 0%nat)))
     ≡ₚ seq 0 (NUM_MEASURES (iface (trials_open (fun _ => 0%nat))))
  /\ calibrated (iface (trials_open (fun _ => 0%nat))) = true
  /\ device_up (trials_open (fun _ => 0%nat)) = true
  /\ enabled (gui (trials_open (fun _ => 0%nat))) "Measure (mm)##input" = true
  /\ enabled (gui (trials_open (fun _ => 0%nat))) "Next" = true
  /\ record_all [11; 12; 13] (trials_open (fun _ => 0%nat))
     = Done tt trials_partly_recorded
  /\ take 3 (multipliers (iface (trials_open (fun _ => 0%nat)))) = [1; 2; 3]%nat.
Proof.
  split; [vm_compute; reflexivity|].
  split; [split; vm_compute; reflexivity|].
  split.
  { replace (multipliers (iface (trials_open (fun _ => 0%nat))))
      with (shuffle (fun _ => 0%nat) (seq 0 27)) by (vm_compute; reflexivity).
    replace (NUM_MEASURES (iface (trials_open (fun _ => 0%nat)))) with 27%nat
      by (vm_compute; reflexivity).
    apply shuffle_Permutation. }
  repeat (split; [vm_compute; reflexivity|]).
  vm_compute; reflexivity.
Qed.

(** C3, amended.  In [hypoglossal_gui.py], [endSession_callback] writes one
    data row for every canonical index [0 .. N*R-1], in ascending order of
    the index, however many trials were recorded and in whatever order
    they were administered: the number of rows is [N*R], not the number of
    recorded trials.  The row of index [c] holds the multiplier of [c] and
    the value stored under [c]: for the trials recorded since the session
    started, the measurement entered for the trial of index [c]; for the
    others, what the array held before.  That is 0.0 as
    [Interface.__init__] leaves it, or a value left by an earlier session,
    because neither [endSession_callback] nor [startSession_callback]
    resets the array.  In [amplitude_gui.py] the data rows are the
    [num_measures] saved pairs, in the order in which they were saved.
    (The file is taken to be one that [open] can create.) *)
Theorem endSession_writes_every_canonical_row (w : World Interface) name t :
  sessionType (iface w) = Some t ->
  filename (iface w) = Some name ->
  sized (iface w) ->
  exists w' head rows,
    endSession_callback w = Done tt w'
    /\ fs w' !! name = Some (head ++ rows)%list
    /\ length head = 6%nat
    /\ length rows = NUM_MEASURES (iface w)
    /\ (forall c, (c < NUM_MEASURES (iface w))%nat ->
          rows !! c
          = Some (row_at (iface w) (int_in (gui w) "Tolerance threshold (mA)##input") c))
    /\ (forall order k,
          fs (final (endSession_callback
                       (with_iface (set_multipliers order (set_amplitude_id k (iface w))) w)))
             !! name
          = Some (head ++ rows)%list)
    (* the trials recorded since the session started, and the others *)
    /\ (forall (w0 : World Interface) (ms : list Z),
          amplitude_id (iface w0) = 0%nat ->
          sized (iface w0) ->
          multipliers (iface w0) ≡ₚ seq 0 (NUM_MEASURES (iface w0)) ->
          calibrated (iface w0) = true ->
          device_up w0 = true ->
          enabled (gui w0) "Measure (mm)##input" = true ->
          enabled (gui w0) "Next" = true ->
          (length ms <= NUM_MEASURES (iface w0))%nat ->
          record_all ms w0 = Done tt w ->
          amplitude_id (iface w) = length ms
          /\ length rows = NUM_MEASURES (iface w0)
          /\ (forall j c m,
                multipliers (iface w0) !! j = Some c -> ms !! j = Some m ->
                rows !! c
                = Some (trial_row (int_in (gui w) "Tolerance threshold (mA)##input")
                          (default 0%float (multiplier_values (iface w0) !! c))
                          (float_of_Z m)))
          /\ (forall c, (c < NUM_MEASURES (iface w0))%nat ->
                c ∉ take (length ms) (multipliers (iface w0)) ->
                rows !! c
                = Some (trial_row (int_in (gui w) "Tolerance threshold (mA)##input")
                          (default 0%float (multiplier_values (iface w0) !! c))
                          (default 0%float (measures (iface w0) !! c)))))
    (* the array is zeroed when the interface is created and never again *)
    /\ measures (iface w') = measures (iface w)
    /\ (forall w0 : World Interface,
          measures (iface (final (startSession_callback w0))) = measures (iface w0))
    /\ (forall base reps,
          measures (make_Interface base reps) = replicate (length base * reps) 0%float)
    (* the other variant *)
    /\ (forall (wa : World Amplitude.Interface) (namea : string),
          Amplitude.filename (iface wa) = Some namea ->
          AmplitudeFacts.aligned (iface wa) ->
          exists wa' heada rowsa,
            Amplitude.endSession_callback wa = Done tt wa'
            /\ fs wa' !! namea = Some (heada ++ rowsa)%list
            /\ length heada = 7%nat
            /\ length rowsa = Amplitude.num_measures (iface wa)
            /\ (forall j a m,
                  Amplitude.amplitudes (iface wa) !! j = Some a ->
                  Amplitude.measures (iface wa) !! j = Some m ->
                  rowsa !! j = Some [FInt a; FInt m])).
Proof.
  intros Ht Hname Hsz.
  destruct (endSession_file w name t Ht Hname Hsz) as (w' & Hrun & Hfs & Hms & _).
  eexists w', _, _. split; [done|].
  split; [by rewrite Hfs, lookup_insert_eq|].
  split; [reflexivity|]. split; [apply length_trial_rows|].
  split; [apply lookup_trial_rows|].
  split.
  { intros order k.
    destruct (endSession_file
                (with_iface (set_multipliers order (set_amplitude_id k (iface w))) w)
                name t) as (w2 & Hrun2 & Hfs2 & _);
      [by destruct w | by destruct w | by destruct w |].
    rewrite Hrun2. cbn [final]. rewrite Hfs2, lookup_insert_eq.
    by destruct w. }
  split.
  { intros w0 ms Hid0 Hsz0 Hperm Hcal Hup Hin Hnext Hlen Hrec.
    destruct (record_all_spec ms w0) as (w1 & Hrun1 & Hk & _ & Hid1 & Hms1 & _);
      try done; [lia|].
    rewrite Hrec in Hrun1. injection Hrun1 as <-.
    rewrite Hid0, drop_0 in Hms1. rewrite Hid0 in Hid1. cbn in Hid1.
    destruct Hk as (_ & _ & _ & Hmv & Hnum & _).
    split; [done|]. split; [by rewrite length_trial_rows|].
    pose proof Hsz0 as [Hlm0 _].
    split.
    - intros j c m Hc Hm.
      assert (Hclt : (c < NUM_MEASURES (iface w0))%nat).
      { apply list_elem_of_lookup_2 in Hc. rewrite Hperm in Hc.
        apply elem_of_seq in Hc. lia. }
      rewrite lookup_trial_rows by lia. unfold row_at. rewrite Hmv, Hms1.
      rewrite (stored_lookup _ _ _ j c m);
        [done | rewrite Hperm; apply NoDup_seq | done | done | lia].
    - intros c Hclt Hnot.
      rewrite lookup_trial_rows by lia. unfold row_at. rewrite Hmv, Hms1.
      by rewrite <- stored_take, stored_other. }
  split; [done|].
  split; [apply startSession_measures|].
  split; [intros base reps; cbn; by rewrite length_tile|].
  intros wa namea Hna Hal.
  destruct (AmplitudeFacts.endSession_writes wa namea Hna Hal) as (wa' & Hruna & Hfsa & _).
  eexists wa', _, _. split; [done|].
  split; [by rewrite Hfsa, lookup_insert_eq|].
  split; [reflexivity|].
  destruct Hal as [Hla Hlm].
  split.
  { unfold AmplitudeFacts.data_rows. rewrite length_zip_with. lia. }
  intros j a m Ha Hm. unfold AmplitudeFacts.data_rows.
  by rewrite lookup_zip_with, Ha, Hm.
Qed.

Lemma endSession_writes_every_canonical_row_witness :
  exists w' head rows,
    endSession_callback (trials_partly_recorded) = Done tt w'
    /\ fs w' !! "P1_hyomental.csv" = Some (head ++ rows)%list
    /\ length head = 6%nat
    /\ length rows = NUM_MEASURES (iface trials_partly_recorded)
    /\ (forall c, (c < NUM_MEASURES (iface trials_partly_recorded))%nat ->
          rows !! c
          = Some (row_at (iface trials_partly_recorded)
                    (int_in (gui trials_partly_recorded)
                       "Tolerance threshold (mA)##input") c))
    /\ (forall order k,
          fs (final (endSession_callback
                       (with_iface
                          (set_multipliers order
                             (set_amplitude_id k (iface trials_partly_recorded)))
                          trials_partly_recorded)))
             !! "P1_hyomental.csv"
          = Some (head ++ rows)%list)
    /\ (forall (w0 : World Interface) (ms : list Z),
          amplitude_id (iface w0) = 0%nat ->
          sized (iface w0) ->
          multipliers (iface w0) ≡ₚ seq 0 (NUM_MEASURES (iface w0)) ->
          calibrated (iface w0) = true ->
          device_up w0 = true ->
          enabled (gui w0) "Measure (mm)##input" = true ->
          enabled (gui w0) "Next" = true ->
          (length ms <= NUM_MEASURES (iface w0))%nat ->
          record_all ms w0 = Done tt trials_partly_recorded ->
          amplitude_id (iface trials_partly_recorded) = length ms
          /\ length rows = NUM_MEASURES (iface w0)
          /\ (forall j c m,
                multipliers (iface w0) !! j = Some c -> ms !! j = Some m ->
                rows !! c
                = Some (trial_row (int_in (gui trials_partly_recorded)
                                     "Tolerance threshold (mA)##input")
                          (default 0%float (multiplier_values (iface w0) !! c))
                          (float_of_Z m)))
          /\ (forall c, (c < NUM_MEASURES (iface w0))%nat ->
                c ∉ take (length ms) (multipliers (iface w0)) ->
                rows !! c
                = Some (trial_row (int_in (gui trials_partly_recorded)
                                     "Tolerance threshold (mA)##input")
                          (default 0%float (multiplier_values (iface w0) !! c))
                          (default 0%float (measures (iface w0) !! c)))))
    /\ measures (iface w') = measures (iface trials_partly_recorded)
    /\ (forall w0 : World Interface,
          measures (iface (final (startSession_callback w0))) = measures (iface w0))
    /\ (forall base reps,
          measures (make_Interface base reps) = replicate (length base * reps) 0%float)
    /\ (forall (wa : World Amplitude.Interface) (namea : string),
          Amplitude.filename (iface wa) = Some namea ->
          AmplitudeFacts.aligned (iface wa) ->
          exists wa' heada rowsa,
            Amplitude.endSession_callback wa = Done tt wa'
            /\ fs wa' !! namea = Some (heada ++ rowsa)%list
            /\ length heada = 7%nat
            /\ length rowsa = Amplitude.num_measures (iface wa)
            /\ (forall j a m,
                  Amplitude.amplitudes (iface wa) !! j = Some a ->
                  Amplitude.measures (iface wa) !! j = Some m ->
                  rowsa !! j = Some [FInt a; FInt m])).
Proof.
  apply (endSession_writes_every_canonical_row trials_partly_recorded
           "P1_hyomental.csv" "hyomental");
    [vm_compute; reflexivity | vm_compute; reflexivity | split; vm_compute; reflexivity].
Defined.

(** ** The end of the sequence *)

Definition measurements : list Z := map Z.of_nat (seq 1 27).

(** C5, as stated, fails: the end of the sequence is reported by the 27th
    call, not by a 28th.  A 28th click is ignored and reports nothing, and a
    28th call of the callback raises [IndexError]. *)
Lemma exhaustion_reported_by_last_trial :
  overall_status (final (record_all (take 26 measurements) (trials_open (fun _ => 0%nat))))
  = "Session started"
  /\ overall_status (final (record_all measurements (trials_open (fun _ => 0%nat))))
     = "Session complete"
  /\ record 28 (final (record_all measurements (trials_open (fun _ => 0%nat))))
     = Done tt (final (record_all measurements (trials_open (fun _ => 0%nat))))
  /\ add_measure_callback (final (record_all measurements (trials_open (fun _ => 0%nat))))
     = Raised IndexError (final (record_all measurements (trials_open (fun _ => 0%nat)))).
Proof. vm_compute. by repeat split. Qed.

(** C5, amended: recording all [N*R] trials stores every measurement under
    the canonical index of its trial; the end of the sequence is reported
    by the last of these calls, which also disables "Next", and by none
    before it.  After that another click changes nothing and another call
    of the callback raises [IndexError] before it has changed anything, so
    the [N*R] records stay as they are. *)
Theorem records_stay_after_last_trial (w : World Interface) (ms : list Z) :
  amplitude_id (iface w) = 0%nat ->
  length ms = NUM_MEASURES (iface w) ->
  ms <> [] ->
  sized (iface w) ->
  multipliers (iface w) ≡ₚ seq 0 (NUM_MEASURES (iface w)) ->
  calibrated (iface w) = true ->
  device_up w = true ->
  enabled (gui w) "Measure (mm)##input" = true ->
  enabled (gui w) "Next" = true ->
  exists w',
    record_all ms w = Done tt w'
    /\ overall_status w' = "Session complete"
    /\ enabled (gui w') "Next" = false
    /\ (forall k c m, multipliers (iface w) !! k = Some c -> ms !! k = Some m ->
          measures (iface w') !! c = Some (float_of_Z m))
    /\ (forall j, (j < length ms)%nat ->
          overall_status (final (record_all (take j ms) w)) = overall_status w)
    /\ (forall m, record m w' = Done tt w')
    /\ add_measure_callback w' = Raised IndexError w'.
Proof.
  intros Hid Hlen Hne Hsz Hperm Hcal Hup Hin Hnext.
  destruct (record_all_spec ms w) as (w' & Hrun & Hk & _ & Hid' & Hms & _ & Hdone);
    try done; [lia|].
  rewrite Hid in Hid', Hms. cbn in Hid'. rewrite drop_0 in Hms.
  destruct Hdone as (Hst & Hin' & Hnext' & _); [done|lia|].
  exists w'. split; [done|]. split; [done|]. split; [done|].
  split.
  { intros k c m Hc Hm. rewrite Hms.
    apply (stored_lookup _ _ _ k); try done.
    - rewrite Hperm. apply NoDup_seq.
    - apply list_elem_of_lookup_2 in Hc. rewrite Hperm in Hc.
      apply elem_of_seq in Hc. destruct Hsz as [-> _]. lia. }
  split.
  { intros j Hj.
    destruct (record_all_spec (take j ms) w) as (wj & Hrunj & _ & _ & Hidj & _ & Hopen & _);
      try done; [rewrite length_take; lia|].
    rewrite Hrunj. cbn [final]. apply Hopen.
    rewrite Hidj, Hid, length_take. lia. }
  split; [intros m; by apply record_disabled|].
  apply add_measure_exhausted.
  destruct Hk as (_ & _ & -> & _). rewrite Hperm, length_seq. lia.
Qed.

Lemma records_stay_after_last_trial_witness :
  exists w',
    record_all measurements (trials_open (fun _ => 0%nat)) = Done tt w'
    /\ overall_status w' = "Session complete"
    /\ enabled (gui w') "Next" = false
    /\ (forall k c m,
          multipliers (iface (trials_open (fun _ => 0%nat))) !! k = Some c ->
          measurements !! k = Some m ->
          measures (iface w') !! c = Some (float_of_Z m))
    /\ (forall j, (j < length measurements)%nat ->
          overall_status (final (record_all (take j measurements)
                                   (trials_open (fun _ => 0%nat))))
          = overall_status (trials_open (fun _ => 0%nat)))
    /\ (forall m, record m w' = Done tt w')
    /\ add_measure_callback w' = Raised IndexError w'.
Proof.
  apply (records_stay_after_last_trial (trials_open (fun _ => 0%nat)) measurements);
    [ reflexivity | reflexivity | discriminate | split; reflexivity
    | exact (shuffle_Permutation (fun _ => 0%nat) (seq 0 27))
    | reflexivity | reflexivity | reflexivity | reflexivity ].
Defined.

(** ** A whole session *)

(** The session of participant P1: the session type is left at the first
    item of the radio button, "Hyomental", and the sex at "Male"; the
    threshold found in calibration is 40 mA. *)
Definition session (ms : list Z) : Cmd :=
  click "Connect" connect_callback;;
  type_text "Participant##input" "P1";;
  type_int "Age##input" 34;;
  click "Start session" startSession_callback;;
  click "Load" send_waveform_callback;;
  type_int "Tolerance threshold (mA)##input" 40;;
  click "Done calibration" done_calibration_callback;;
  record_all ms;;
  click "End session" endSession_callback.

(** A callback that raises is reported by the GUI library and the form
    goes on with the world as the raise left it. *)
Definition form_event (c : Cmd) : Cmd := fun w => Done tt (final (c w)).

(** The same session with the session ID forced to "S1", a value the radio
    button does not offer. *)
Definition session_S1 (ms : list Z) : Cmd :=
  click "Connect" connect_callback;;
  type_text "Participant##input" "P1";;
  type_text "Session ID##input" "S1";;
  type_int "Age##input" 34;;
  form_event (click "Start session" startSession_callback);;
  form_event (click "Load" send_waveform_callback);;
  type_int "Tolerance threshold (mA)##input" 40;;
  form_event (click "Done calibration" done_calibration_callback);;
  record_all ms;;
  form_event (click "End session" endSession_callback).

(** C7, as stated, fails: no file [P1_S1.csv] is written.  With "S1" as
    session ID [parseInputs] raises [AttributeError] on the session type
    that was never assigned, the session does not start and nothing is
    written; with the session type the form offers, the file is
    [P1_hyomental.csv]. *)
Lemma no_file_named_after_session_id :
  startSession_callback
    (final ((click "Connect" connect_callback;;
             type_text "Participant##input" "P1";;
             type_text "Session ID##input" "S1")
              (world_init ∅ true (fun _ => 0%nat))))
  = Raised AttributeError
      (with_iface
         (set_identity "P1" "S1" "Male" 30 (set_connected true Interface_init))
         (final ((click "Connect" connect_callback;;
                  type_text "Participant##input" "P1";;
                  type_text "Session ID##input" "S1")
                   (world_init ∅ true (fun _ => 0%nat)))))
  /\ fs (final (session_S1 measurements (world_init ∅ true (fun _ => 0%nat)))) = ∅
  /\ state_of (final (session_S1 measurements (world_init ∅ true (fun _ => 0%nat))))
     = Connected
  /\ fs (final (session measurements (world_init ∅ true (fun _ => 0%nat)))) !! "P1_S1.csv"
     = None
  /\ is_Some (fs (final (session measurements (world_init ∅ true (fun _ => 0%nat))))
                !! "P1_hyomental.csv").
Proof. vm_compute. repeat split; eauto. Qed.

(** Entering the threshold changes that input and nothing else. *)
Lemma enter_threshold (w : World Interface) (z : Z) :
  enabled (gui w) "Tolerance threshold (mA)##input" = true ->
  exists w', type_int "Tolerance threshold (mA)##input" z w = Done tt w'
    /\ iface w' = iface w
    /\ enabled (gui w') = enabled (gui w)
    /\ text (gui w') = text (gui w)
    /\ fs w' = fs w
    /\ device_up w' = device_up w
    /\ int_in (gui w') "Tolerance threshold (mA)##input" = z
    /\ int_in (gui w') "Age##input" = int_in (gui w) "Age##input"
    /\ int_in (gui w') "Baseline (mm)##input" = int_in (gui w) "Baseline (mm)##input"
    /\ int_in (gui w') "Measurement (mm)##input"
       = int_in (gui w) "Measurement (mm)##input".
Proof.
  intros Hen. destruct w as [i g f up lg out r]. cbn in *.
  unfold type_int. cbn. rewrite Hen.
  eexists; split; [reflexivity|]. by repeat split.
Qed.

(** The amplitudes of the 27 rows for a threshold of 40 mA. *)
Lemma amplitudes_at_40 (c : nat) :
  (c < 27)%nat ->
  int_of_float (float_of_Z 40 * default 0%float (tile base_multipliers 3 !! c))
  = 4 * (Z.of_nat (c mod 9) + 1).
Proof.
  intros Hc. do 27 (destruct c as [|c]; [vm_compute; reflexivity|]). lia.
Qed.

Lemma multipliers_not_negative :
  Forall (fun m => (0 <=? m)%float = true) (tile base_multipliers 3).
Proof. vm_compute. repeat constructor. Qed.

(** Stepping over a statement whose outcome is computed. *)
Ltac advance :=
  match goal with
  | |- context [@mbind _ _ _ _ ?k ?c ?w] =>
      rewrite (bind_done c k w tt (final (c w))) by (vm_compute; reflexivity)
  end.

Lemma click_then {I B} (tag : string) (callback : M I unit) (k : unit -> M I B)
    (w w' : World I) :
  enabled (gui w) tag = true -> callback w = Done tt w' ->
  (click tag callback ≫= k) w = k tt w'.
Proof. intros Hen Hrun. apply bind_done. by rewrite click_enabled. Qed.

(** C7, amended: for participant "P1", age 34, sex Male, the session type
    "Hyomental" the form offers, nine multipliers in three repeats and a
    threshold of 40 mA, recording the 27 measurements [ms] and ending the
    session writes the file [P1_hyomental.csv] (and no [P1_S1.csv]) with 27
    data rows after the preamble.  Whatever the shuffle drew, the row of
    canonical index [c] holds the floor of 40 times the multiplier of [c],
    that multiplier, and the measurement entered for the trial of index
    [c]; the amplitudes are 4, 8, ..., 36, three times over. *)
Theorem hyomental_session_file (draws : nat -> nat) (ms : list Z) :
  length ms = 27%nat ->
  exists w' rows,
    session ms (world_init ∅ true draws) = Done tt w'
    /\ fs w' !! "P1_hyomental.csv"
       = Some (preamble "P1" "hyomental" 34 "Male" 0 40 0 ++ rows)%list
    /\ fs w' !! "P1_S1.csv" = None
    /\ length rows = 27%nat
    /\ (forall k c m,
          shuffle draws (seq 0 27) !! k = Some c -> ms !! k = Some m ->
          exists mult,
            tile base_multipliers 3 !! c = Some mult
            /\ rows !! c
               = Some [FInt (floor_of_float (float_of_Z 40 * mult));
                       FFloat mult; FFloat (float_of_Z m)])
    /\ (forall c row, rows !! c = Some row ->
          row !! 0%nat = Some (FInt (4 * (Z.of_nat (c mod 9) + 1)))).
Proof.
  intros Hlen. unfold session.
  do 3 advance.
  set (w0 := final (type_int "Age##input" 34 _)).
  destruct (startSession_accepts w0 "P1" "Hyomental" "hyomental") as
    (w1 & Hrun1 & _ & Hord1 & Hid1 & Hty1 & Hfn1 & _ & _ & Hload1 & _ & _ & _
        & Hfs1 & Hup1 & Hmv1 & Hnum1 & Hms1 & Hcal1 & Hp1 & Hsx1 & Hint1);
    [vm_compute; reflexivity | discriminate | vm_compute; reflexivity | by left
    | vm_compute; reflexivity |].
  rewrite (click_then _ _ _ w0 w1) by (done || (vm_compute; reflexivity)).
  change (rng w0) with draws in Hord1.
  change (multipliers (iface w0)) with (seq 0 27) in Hord1.
  change (fs w0) with (∅ : FS) in Hfs1.
  change (device_up w0) with true in Hup1.
  change (multiplier_values (iface w0)) with (tile base_multipliers 3) in Hmv1.
  change (NUM_MEASURES (iface w0)) with 27%nat in Hnum1.
  change (measures (iface w0)) with (replicate 27 0%float) in Hms1.
  change (text (gui w0) "Sex##input") with "Male" in Hsx1.
  assert (Hage1 : int_in (gui w1) "Age##input" = 34) by (by rewrite Hint1).
  assert (Hbase1 : int_in (gui w1) "Baseline (mm)##input" = 0) by (by rewrite Hint1).
  assert (Hmeas1 : int_in (gui w1) "Measurement (mm)##input" = 0) by (by rewrite Hint1).
  clearbody w0. clear Hint1.
  (* Load *)
  destruct (load_ok w1 Hup1) as
    (w2 & Hrun2 & Hk2 & Hcal2 & Hid2 & Hms2 & _ & _ & Hdone2 & _ & Hthr2 & _ & _).
  rewrite (click_then _ _ _ w1 w2) by done.
  (* the threshold *)
  destruct (enter_threshold w2 40 Hthr2) as
    (w3 & Hrun3 & Hi3 & Hen3 & Htx3 & Hfs3 & Hup3 & Ht3 & Hage3 & Hbase3 & Hmeas3).
  rewrite (bind_done _ _ _ _ _ Hrun3).
  destruct Hk2 as (Hfs2 & Hup2 & Hord2 & Hmv2 & Hnum2 & Hlen2 & Hty2 & Hfn2 & Hp2 & Hsx2
                   & Hage2 & Hbase2 & _ & Hmeas2).
  assert (Hperm : shuffle draws (seq 0 27) ≡ₚ seq 0 27) by apply shuffle_Permutation.
  assert (Hlo : length (shuffle draws (seq 0 27)) = 27%nat) by (by rewrite Hperm).
  assert (Hin_order : forall k c, shuffle draws (seq 0 27) !! k = Some c -> (c < 27)%nat).
  { intros k c Hc. apply list_elem_of_lookup_2 in Hc. rewrite Hperm in Hc.
    apply elem_of_seq in Hc. lia. }
  (* Done calibration *)
  destruct (lookup_lt_is_Some_2 (shuffle draws (seq 0 27)) 0) as [c0 Hc0]; [lia|].
  destruct (lookup_lt_is_Some_2 (tile base_multipliers 3) c0) as [mv0 Hmv0];
    [rewrite length_tile; cbn; by apply (Hin_order 0%nat)|].
  destruct (done_calibration_ok w3 c0 mv0) as
    (w4 & Hrun4 & Hk4 & Hcal4 & Hid4 & Hms4 & _ & _ & Hnext4 & Hin4 & _ & _).
  { by rewrite Hi3, Hord2, Hord1, Hid2, Hid1. }
  { by rewrite Hi3, Hmv2, Hmv1. }
  { congruence. }
  rewrite (click_then _ _ _ w3 w4); [| by rewrite Hen3 | done].
  destruct Hk4 as (Hfs4 & Hup4 & Hord4 & Hmv4 & Hnum4 & Hlen4 & Hty4 & Hfn4 & Hp4 & Hsx4
                   & Hage4 & Hbase4 & Hthr4 & Hmeas4).
  assert (Ho4 : multipliers (iface w4) = shuffle draws (seq 0 27)) by congruence.
  assert (Hn4 : NUM_MEASURES (iface w4) = 27%nat) by congruence.
  assert (Hv4 : multiplier_values (iface w4) = tile base_multipliers 3) by congruence.
  assert (Hm4 : measures (iface w4) = replicate 27 0%float) by congruence.
  assert (Hi4 : amplitude_id (iface w4) = 0%nat) by congruence.
  (* the trials *)
  destruct (record_all_spec ms w4) as (w5 & Hrun5 & Hk5 & _ & Hid5 & Hms5 & _ & Hdone5).
  { split; [by rewrite Hm4, Hn4 | by rewrite Hv4, Hn4]. }
  { by rewrite Ho4, Hn4. }
  { done. }
  { congruence. }
  { done. }
  { done. }
  { rewrite Hi4, Hn4, Hlen. lia. }
  rewrite (bind_done _ _ _ _ _ Hrun5).
  rewrite Hi4, Ho4, Hm4, drop_0 in Hms5. rewrite Hi4, Hlen in Hid5. cbn in Hid5.
  destruct Hdone5 as (_ & _ & _ & Hend5); [by destruct ms | congruence |].
  destruct Hk5 as (Hfs5 & Hup5 & Hord5 & Hmv5 & Hnum5 & Hlen5 & Hty5 & Hfn5 & Hp5 & Hsx5
                   & Hage5 & Hbase5 & Hthr5 & Hmeas5).
  assert (Hv5 : multiplier_values (iface w5) = tile base_multipliers 3) by congruence.
  assert (Hn5 : NUM_MEASURES (iface w5) = 27%nat) by congruence.
  (* End session *)
  rewrite click_enabled by done.
  destruct (endSession_file w5 "P1_hyomental.csv" "hyomental") as (w6 & Hrun6 & Hfs6 & _).
  { congruence. }
  { rewrite Hfn5, Hfn4, Hi3, Hfn2, Hfn1. reflexivity. }
  { split; [by rewrite Hms5, length_stored, Hn5 | by rewrite Hv5, Hn5]. }
  exists w6, (trial_rows (iface w5) 40).
  split; [done|].
  assert (Hthr : int_in (gui w5) "Tolerance threshold (mA)##input" = 40) by congruence.
  split.
  { rewrite Hfs6, lookup_insert_eq, Hthr. do 2 f_equal. unfold preamble.
    repeat f_equal; congruence. }
  split.
  { rewrite Hfs6, lookup_insert_ne by done.
    assert (fs w5 = ∅) as -> by congruence. apply lookup_empty. }
  split; [by rewrite length_trial_rows|].
  split.
  - intros k c m Hc Hm. pose proof (Hin_order k c Hc) as Hclt.
    destruct (lookup_lt_is_Some_2 (tile base_multipliers 3) c) as [mult Hmult];
      [rewrite length_tile; cbn; lia|].
    exists mult. split; [done|].
    rewrite lookup_trial_rows by (rewrite Hn5; lia).
    unfold row_at, trial_row. rewrite Hv5, Hmult, Hms5.
    rewrite (stored_lookup _ _ _ k c m);
      [ | rewrite Hperm; apply NoDup_seq | done | done | by rewrite length_replicate ].
    cbn [default from_option id]. rewrite int_is_floor; [done|lia|].
    pose proof multipliers_not_negative as Hpos.
    rewrite Forall_forall in Hpos. apply Hpos. by apply list_elem_of_lookup_2 with c.
  - intros c row Hrow.
    assert (Hclt : (c < 27)%nat).
    { apply lookup_lt_Some in Hrow. by rewrite length_trial_rows, Hn5 in Hrow. }
    rewrite lookup_trial_rows in Hrow by (rewrite Hn5; lia).
    injection Hrow as <-. unfold row_at, trial_row. rewrite Hv5. cbn [lookup list_lookup].
    by rewrite amplitudes_at_40.
Qed.

Lemma hyomental_session_file_witness :
  exists w' rows,
    session measurements (world_init ∅ true (fun _ => 0%nat)) = Done tt w'
    /\ fs w' !! "P1_hyomental.csv"
       = Some (preamble "P1" "hyomental" 34 "Male" 0 40 0 ++ rows)%list
    /\ fs w' !! "P1_S1.csv" = None
    /\ length rows = 27%nat
    /\ (forall k c m,
          shuffle (fun _ => 0%nat) (seq 0 27) !! k = Some c -> measurements !! k = Some m ->
          exists mult,
            tile base_multipliers 3 !! c = Some mult
            /\ rows !! c
               = Some [FInt (floor_of_float (float_of_Z 40 * mult));
                       FFloat mult; FFloat (float_of_Z m)])
    /\ (forall c row, rows !! c = Some row ->
          row !! 0%nat = Some (FInt (4 * (Z.of_nat (c mod 9) + 1)))).
Proof.
  apply (hyomental_session_file (fun _ => 0%nat) measurements). reflexivity.
Defined.

End HypoglossalFacts.

(** * More on [amplitude_gui.py] *)

Module AmplitudeMore.
Import Amplitude AmplitudeFacts.

(** Running a callback one statement at a time. *)
Ltac run :=
  step_all;
  cbn [enabled text int_in color gui_enable gui_text gui_int gui_color
       connected inputCheck ready amplitudes measures num_measures current_amplitude
       greeting on off participantID sessionID sex age filename
       set_connected set_inputCheck set_ready append_measure set_num_measures
       set_current_amplitude set_identity set_filename].

(** ** Saving pairs and ending the session *)



Definition saving_open (w : World Interface) : Prop :=
  enabled (gui w) "Amplitude##input" = true
  /\ enabled (gui w) "Measurement##input" = true
  /\ enabled (gui w) "Save measure" = true.





(** A session in which a waveform has been sent for participant P1. *)
Definition sending : World Interface :=
  final ((click "Connect" connect_callback;;
          type_text "Participant##input" "P1";;
          type_text "Session ID##input" "S1";;
          click "Start session" startSession_callback;;
          click "Send" send_waveform_callback)
           (world_init ∅ true (fun _ => 0%nat))).


(** ** Ending a session that has no file name *)

(** In a process where no start has passed the checks on the identity
    inputs yet, a start with an empty participant ID still opens the
    session, and ending that session raises [AttributeError] at
    [interface.filename]: nothing is written and the form stays as it was,
    with the session shown as started. *)
Theorem end_of_unnamed_session_raises (w : World Interface) :
  text (gui w) "Participant##input" = "" ->
  filename (iface w) = None ->
  exists w1,
    startSession_callback w = Done tt w1
    /\ state_of w1 = SessionActive
    /\ enabled (gui w1) "End session" = true
    /\ click "End session" endSession_callback w1 = Raised AttributeError w1
    /\ fs w1 = fs w.
Proof.
  intros Hp Hf. destruct w as [i g f up lg out r]. cbn in *.
  unfold startSession_callback, parseInputs. run. rewrite Hp. cbn [py_eq String.eqb]. run.
  eexists; split; [reflexivity|]. split; [reflexivity|]. split; [reflexivity|].
  split; [|reflexivity].
  unfold click, endSession_callback. run. by rewrite Hf.
Qed.

Lemma end_of_unnamed_session_raises_witness :
  exists w1,
    startSession_callback (connected_world ∅) = Done tt w1
    /\ state_of w1 = SessionActive
    /\ enabled (gui w1) "End session" = true
    /\ click "End session" endSession_callback w1 = Raised AttributeError w1
    /\ fs w1 = fs (connected_world ∅).
Proof.
  apply (end_of_unnamed_session_raises (connected_world ∅));
    vm_compute; reflexivity.
Defined.

(** ** The listener on lines it can decode *)

(** The lines on which [int_of_str] stands for [int]: ASCII only, and no
    longer than the 4300 digits [int] accepts. *)
Definition ascii_only (s : string) : bool :=
  forallb (fun c => (N_of_ascii c <? 128)%N) (list_ascii_of_string s).

(** Every line that is valid UTF-8 is handled without an exception: it is
    echoed once; "On" anywhere in it switches the stimulation status on,
    whatever else the line holds; otherwise "Off" switches it off;
    otherwise an ASCII line that [int] accepts becomes the current
    amplitude, and an ASCII line that [int] refuses changes nothing more.
    Nothing but the echo is printed: the greeting is never acknowledged. *)
Theorem decodable_line_is_classified (w : World Interface) (response : string) :
  utf8_valid response = true ->
  exists w',
    handle_response response w = Done tt w'
    /\ stdout w' = strip is_nul response :: stdout w
    /\ (contains "On" (strip is_nul response) = true ->
        stimulation_on w' = true /\ iface w' = iface w)
    /\ (contains "On" (strip is_nul response) = false ->
        contains "Off" (strip is_nul response) = true ->
        stimulation_on w' = false /\ iface w' = iface w)
    /\ (contains "On" (strip is_nul response) = false ->
        contains "Off" (strip is_nul response) = false ->
        ascii_only response = true -> (String.length response <= 4300)%nat ->
        forall n, int_of_str (strip is_nul response) = Some n ->
        iface w' = set_current_amplitude n (iface w)
        /\ text (gui w') "##CurrentAmplitude" = pretty n
        /\ stimulation_on w' = stimulation_on w)
    /\ (contains "On" (strip is_nul response) = false ->
        contains "Off" (strip is_nul response) = false ->
        ascii_only response = true -> (String.length response <= 4300)%nat ->
        int_of_str (strip is_nul response) = None ->
        w' = with_stdout (strip is_nul response :: stdout w) w).
Proof.
  intros Hv. destruct w as [i g f up lg out r].
  unfold handle_response, start_stimulation_status, stop_stimulation_status.
  run. rewrite Hv. run. cbn [py_eq].
  destruct (contains "On" _) eqn:Hon; run.
  { eexists; split; [reflexivity|]. by repeat split. }
  destruct (contains "Off" _) eqn:Hoff; run.
  { eexists; split; [reflexivity|]. by repeat split. }
  destruct (int_of_str _) as [n|] eqn:Hn; run.
  - eexists; split; [reflexivity|]. cbn.
    split; [done|]. split; [done|]. split; [done|]. split; [|done].
    intros _ _ _ _ n' [= <-]. by repeat split.
  - eexists; split; [reflexivity|]. by repeat split.
Qed.

Lemma decodable_line_is_classified_witness :
  exists w',
    handle_response ("42" ++ String "013" (String "010" "")) sending = Done tt w'
    /\ stdout w' = strip is_nul ("42" ++ String "013" (String "010" "")) :: stdout sending
    /\ (contains "On" (strip is_nul ("42" ++ String "013" (String "010" ""))) = true ->
        stimulation_on w' = true /\ iface w' = iface sending)
    /\ (contains "On" (strip is_nul ("42" ++ String "013" (String "010" ""))) = false ->
        contains "Off" (strip is_nul ("42" ++ String "013" (String "010" ""))) = true ->
        stimulation_on w' = false /\ iface w' = iface sending)
    /\ (contains "On" (strip is_nul ("42" ++ String "013" (String "010" ""))) = false ->
        contains "Off" (strip is_nul ("42" ++ String "013" (String "010" ""))) = false ->
        ascii_only ("42" ++ String "013" (String "010" "")) = true -> (String.length ("42" ++ String "013" (String "010" "")) <= 4300)%nat ->
        forall n, int_of_str (strip is_nul ("42" ++ String "013" (String "010" ""))) = Some n ->
        iface w' = set_current_amplitude n (iface sending)
        /\ text (gui w') "##CurrentAmplitude" = pretty n
        /\ stimulation_on w' = stimulation_on sending)
    /\ (contains "On" (strip is_nul ("42" ++ String "013" (String "010" ""))) = false ->
        contains "Off" (strip is_nul ("42" ++ String "013" (String "010" ""))) = false ->
        ascii_only ("42" ++ String "013" (String "010" "")) = true -> (String.length ("42" ++ String "013" (String "010" "")) <= 4300)%nat ->
        int_of_str (strip is_nul ("42" ++ String "013" (String "010" ""))) = None ->
        w' = with_stdout (strip is_nul ("42" ++ String "013" (String "010" "")) :: stdout sending) sending).
Proof.
  apply (decodable_line_is_classified sending ("42" ++ String "013" (String "010" ""))).
  reflexivity.
Defined.

(** ** Sending a waveform and stimulating *)

(** "Send" with one of the five waveforms of the radio button: the
    waveform goes to the device at 50 mA and the frequency of the form,
    whatever amplitude the device last reported; the display shows the
    reported amplitude; the controls for stimulation and for saving
    measures are enabled and the listener is let in. *)
Theorem send_waveform_effect (w : World Interface) (name : string) :
  0 <= int_in (gui w) "Waveform##input" ->
  waveforms !! Z.to_nat (int_in (gui w) "Waveform##input") = Some name ->
  device_up w = true ->
  exists w',
    send_waveform_callback w = Done tt w'
    /\ dev_log w' = DSend name 50 (int_in (gui w) "Frequency (Hz)##input") :: dev_log w
    /\ iface w' = set_ready true (iface w)
    /\ text (gui w') "##CurrentWaveform" = name
    /\ text (gui w') "##CurrentFrequency" = pretty (int_in (gui w) "Frequency (Hz)##input")
    /\ text (gui w') "##CurrentAmplitude" = pretty (current_amplitude (iface w))
    /\ saving_open w'
    /\ enabled (gui w') "Stimulate" = true
    /\ enabled (gui w') "Start" = true
    /\ enabled (gui w') "End session" = true
    /\ fs w' = fs w.
Proof.
  intros Hid Hname Hup. destruct w as [i g f up lg out r]. cbn in *. subst up.
  unfold send_waveform_callback. run.
  rewrite (proj2 (Z.leb_le _ _) Hid). run. rewrite Hname. run.
  eexists; split; [reflexivity|]. unfold saving_open. cbn. by repeat split.
Qed.

Lemma send_waveform_effect_witness :
  exists w',
    send_waveform_callback
      (final (type_int "Waveform##input" 2
                (final (click "Start session" startSession_callback (connected_world ∅)))))
    = Done tt w'
    /\ dev_log w'
       = DSend "Wavelet" 50
           (int_in (gui (final (type_int "Waveform##input" 2
                                  (final (click "Start session" startSession_callback
                                            (connected_world ∅))))))
              "Frequency (Hz)##input")
         :: dev_log (final (type_int "Waveform##input" 2
                              (final (click "Start session" startSession_callback
                                        (connected_world ∅)))))
    /\ iface w'
       = set_ready true
           (iface (final (type_int "Waveform##input" 2
                            (final (click "Start session" startSession_callback
                                      (connected_world ∅))))))
    /\ text (gui w') "##CurrentWaveform" = "Wavelet"
    /\ text (gui w') "##CurrentFrequency"
       = pretty (int_in (gui (final (type_int "Waveform##input" 2
                                       (final (click "Start session" startSession_callback
                                                 (connected_world ∅))))))
                   "Frequency (Hz)##input")
    /\ text (gui w') "##CurrentAmplitude"
       = pretty (current_amplitude
                   (iface (final (type_int "Waveform##input" 2
                                    (final (click "Start session" startSession_callback
                                              (connected_world ∅)))))))
    /\ saving_open w'
    /\ enabled (gui w') "Stimulate" = true
    /\ enabled (gui w') "Start" = true
    /\ enabled (gui w') "End session" = true
    /\ fs w' = fs (final (type_int "Waveform##input" 2
                            (final (click "Start session" startSession_callback
                                      (connected_world ∅))))).
Proof.
  apply (send_waveform_effect
           (final (type_int "Waveform##input" 2
                     (final (click "Start session" startSession_callback
                               (connected_world ∅)))))
           "Wavelet");
    vm_compute; first [reflexivity | discriminate].
Defined.

(** A timed stimulation of a duration that is not negative starts and
    stops the device, in that order, and returns with the status off,
    "Stop" disabled and the other controls enabled; the interface record
    is not touched. *)
Theorem stimulate_starts_then_stops (w : World Interface) :
  device_up w = true ->
  0 <= int_in (gui w) "Duration (s)##input" ->
  exists w',
    stimulate_callback w = Done tt w'
    /\ dev_log w' = DStop :: DStart :: dev_log w
    /\ stimulation_on w' = false
    /\ enabled (gui w') "Stop" = false
    /\ enabled (gui w') "Start" = true
    /\ enabled (gui w') "Stimulate" = true
    /\ enabled (gui w') "Send" = true
    /\ enabled (gui w') "End session" = true
    /\ iface w' = iface w
    /\ fs w' = fs w.
Proof.
  intros Hup Hdur. destruct w as [i g f up lg out r]. cbn in *. subst up.
  unfold stimulate_callback, start_stimulation, stop_stimulation,
    start_stimulation_status, stop_stimulation_status. run.
  rewrite (proj2 (Z.ltb_ge _ _) Hdur). run.
  eexists; split; [reflexivity|]. by repeat split.
Qed.

Lemma stimulate_starts_then_stops_witness :
  exists w',
    stimulate_callback sending = Done tt w'
    /\ dev_log w' = DStop :: DStart :: dev_log sending
    /\ stimulation_on w' = false
    /\ enabled (gui w') "Stop" = false
    /\ enabled (gui w') "Start" = true
    /\ enabled (gui w') "Stimulate" = true
    /\ enabled (gui w') "Send" = true
    /\ enabled (gui w') "End session" = true
    /\ iface w' = iface sending
    /\ fs w' = fs sending.
Proof.
  apply (stimulate_starts_then_stops sending); vm_compute;
    first [reflexivity | discriminate].
Defined.

(** With a negative duration [time.sleep] raises after the device has been
    started: the stimulation is never stopped by the callback, the status
    stays on, and "Send", "Stimulate" and "End session" stay disabled;
    only "Stop" is left to the operator. *)
Theorem stimulate_negative_duration (w : World Interface) :
  device_up w = true ->
  int_in (gui w) "Duration (s)##input" < 0 ->
  exists w',
    stimulate_callback w = Raised ValueError w'
    /\ dev_log w' = DStart :: dev_log w
    /\ stimulation_on w' = true
    /\ enabled (gui w') "Stop" = true
    /\ enabled (gui w') "Start" = false
    /\ enabled (gui w') "Stimulate" = false
    /\ enabled (gui w') "Send" = false
    /\ enabled (gui w') "End session" = false
    /\ iface w' = iface w.
Proof.
  intros Hup Hdur. destruct w as [i g f up lg out r]. cbn in *. subst up.
  unfold stimulate_callback, start_stimulation, stop_stimulation,
    start_stimulation_status, stop_stimulation_status. run.
  rewrite (proj2 (Z.ltb_lt _ _) Hdur). run.
  eexists; split; [reflexivity|]. by repeat split.
Qed.

Lemma stimulate_negative_duration_witness :
  exists w',
    stimulate_callback (final (type_int "Duration (s)##input" (-1) sending))
    = Raised ValueError w'
    /\ dev_log w' = DStart :: dev_log (final (type_int "Duration (s)##input" (-1) sending))
    /\ stimulation_on w' = true
    /\ enabled (gui w') "Stop" = true
    /\ enabled (gui w') "Start" = false
    /\ enabled (gui w') "Stimulate" = false
    /\ enabled (gui w') "Send" = false
    /\ enabled (gui w') "End session" = false
    /\ iface w' = iface (final (type_int "Duration (s)##input" (-1) sending)).
Proof.
  apply (stimulate_negative_duration
           (final (type_int "Duration (s)##input" (-1) sending)));
    vm_compute; reflexivity.
Defined.

(** ** What holds in every run *)







(** Among the operator's actions only "End session" takes the listener's
    permission away, and no line from the device does: once a waveform has
    been sent, [interface.ready] stays true until the session is ended. *)
Theorem ready_until_end_of_session (o : op) (l : string) (w : World Interface) :
  ready (iface w) = true ->
  (o <> ClickEndSession -> ready (iface (final (run_op o w))) = true)
  /\ ready (iface (final (handle_response l w))) = true.
Proof.
  intros Hr. split.
  - intros Ho. destruct (run_op_ready o w Ho) as [H|H]; congruence.
  - by rewrite handle_response_ready.
Qed.

Lemma ready_until_end_of_session_witness :
  (ClickStimulate <> ClickEndSession ->
   ready (iface (final (run_op ClickStimulate sending))) = true)
  /\ ready (iface (final (handle_response "Off" sending))) = true.
Proof. apply (ready_until_end_of_session ClickStimulate "Off" sending). reflexivity. Defined.

(** ** After the listener has died *)

(** The lines the device sends in a run. *)
Definition arrivals (evs : list event) : list string :=
  omap (fun e => match e with DeviceSends l => Some l | _ => None end) evs.

Lemma endSession_amplitude (w : World Interface) :
  current_amplitude (iface (final (endSession_callback w))) = current_amplitude (iface w).
Proof.
  destruct w as [i g f up lg out r]. unfold endSession_callback. run.
  destruct (filename i) as [name|]; run; [|done].
  match goal with
  | |- context [write_rows ?n ?l ?w0] =>
      pose proof (write_rows_iface n l w0) as Hw; destruct (write_rows n l w0)
  end; match goal with s : World Interface |- _ => destruct s end;
    cbn in *; by subst.
Qed.

(** No callback of the form assigns [interface.current_amplitude]. *)
Lemma run_op_amplitude (o : op) (w : World Interface) :
  current_amplitude (iface (final (run_op o w))) = current_amplitude (iface w).
Proof.
  destruct o; cbn [run_op];
    try (destruct w as [i g f up lg out r];
         unfold connect_callback, startSession_callback, parseInputs,
           send_waveform_callback, stimulate_callback, start_stimulation,
           stop_stimulation, start_stimulation_status, stop_stimulation_status,
           add_measure_callback;
         step_all; branch; reflexivity).
  unfold click. destruct (enabled _ _); [|done]. apply endSession_amplitude.
Qed.

(** Once an exception has ended the listener thread, the process goes on
    without it: whatever the operator does and whatever the device sends,
    no line is read again, the lines sent pile up in the buffer in the
    order of their arrival, and the amplitude the interface holds for the
    device is never updated again. *)
Theorem dead_listener_reads_nothing (e : exn) (evs : list event) (s : System) :
  pc s = Dead e ->
  pc (sys_run evs s) = Dead e
  /\ reads evs s = 0%nat
  /\ inbox (sys_run evs s) = (inbox s ++ arrivals evs)%list
  /\ current_amplitude (iface (world (sys_run evs s)))
     = current_amplitude (iface (world s)).
Proof.
  revert s. induction evs as [|ev evs IH]; intros s Hpc.
  { cbn. by rewrite app_nil_r. }
  assert (Hstep : pc (sys_step ev s) = Dead e
                  /\ reads_line ev s = false
                  /\ inbox (sys_step ev s) = (inbox s ++ arrivals [ev])%list
                  /\ current_amplitude (iface (world (sys_step ev s)))
                     = current_amplitude (iface (world s))).
  { destruct s as [w p box]. cbn [pc] in Hpc. subst p.
    destruct ev as [o|l| |]; cbn; rewrite ?app_nil_r; try done.
    by rewrite run_op_amplitude. }
  destruct Hstep as (Hp & Hr & Hb & Ha).
  destruct (IH (sys_step ev s) Hp) as (Hp' & Hr' & Hb' & Ha').
  cbn [sys_run foldl reads]. fold (sys_run evs (sys_step ev s)).
  rewrite Hr, Hr'. split; [done|]. split; [done|]. split.
  - rewrite Hb', Hb, <- app_assoc. f_equal.
    unfold arrivals. by destruct ev.
  - by rewrite Ha', Ha.
Qed.

Lemma dead_listener_reads_nothing_witness :
  pc (sys_run [Operator ClickStimulate; DeviceSends "12"; Listener; Listener]
        (sys_run [DeviceSends noise; Listener; Listener] (mkSystem sending AtCheck [])))
  = Dead UnicodeDecodeError
  /\ reads [Operator ClickStimulate; DeviceSends "12"; Listener; Listener]
       (sys_run [DeviceSends noise; Listener; Listener] (mkSystem sending AtCheck []))
     = 0%nat
  /\ inbox (sys_run [Operator ClickStimulate; DeviceSends "12"; Listener; Listener]
              (sys_run [DeviceSends noise; Listener; Listener]
                 (mkSystem sending AtCheck [])))
     = (inbox (sys_run [DeviceSends noise; Listener; Listener]
                 (mkSystem sending AtCheck []))
        ++ arrivals [Operator ClickStimulate; DeviceSends "12"; Listener; Listener])%list
  /\ current_amplitude
       (iface (world (sys_run [Operator ClickStimulate; DeviceSends "12"; Listener; Listener]
                        (sys_run [DeviceSends noise; Listener; Listener]
                           (mkSystem sending AtCheck [])))))
     = current_amplitude
         (iface (world (sys_run [DeviceSends noise; Listener; Listener]
                          (mkSystem sending AtCheck [])))).
Proof.
  apply (dead_listener_reads_nothing UnicodeDecodeError
           [Operator ClickStimulate; DeviceSends "12"; Listener; Listener]
           (sys_run [DeviceSends noise; Listener; Listener] (mkSystem sending AtCheck []))).
  vm_compute. reflexivity.
Defined.

End AmplitudeMore.

(** * More of [hypoglossal_gui.py] *)

Module HypoglossalMore.
Import Hypoglossal HypoglossalFacts.

(** The form once the device is connected. *)
Definition connected_form (files : FS) : World Interface :=
  final (click "Connect" connect_callback (world_init files true (fun _ => 0%nat))).

(** ** Starts that are refused *)

(** With an empty participant ID the start is refused: the status asks
    for the ID, no control changes, the order of administration is not
    shuffled and no random draw is used, and no file is touched. *)
Theorem start_refused_without_participant (w : World Interface) :
  text (gui w) "Participant##input" = "" ->
  exists w', startSession_callback w = Done tt w'
    /\ inputCheck (iface w') = false
    /\ overall_status w' = "Enter participant ID"
    /\ state_of w' = state_of w
    /\ enabled (gui w') = enabled (gui w)
    /\ multipliers (iface w') = multipliers (iface w)
    /\ amplitude_id (iface w') = amplitude_id (iface w)
    /\ fs w' = fs w
    /\ rng w' = rng w.
Proof. intros Hp. apply startSession_refuses. by left. Qed.

Lemma start_refused_without_participant_witness :
  exists w', startSession_callback (connected_form ∅) = Done tt w'
    /\ inputCheck (iface w') = false
    /\ overall_status w' = "Enter participant ID"
    /\ state_of w' = state_of (connected_form ∅)
    /\ enabled (gui w') = enabled (gui (connected_form ∅))
    /\ multipliers (iface w') = multipliers (iface (connected_form ∅))
    /\ amplitude_id (iface w') = amplitude_id (iface (connected_form ∅))
    /\ fs w' = fs (connected_form ∅)
    /\ rng w' = rng (connected_form ∅).
Proof. apply (start_refused_without_participant (connected_form ∅)). reflexivity. Defined.

(** A start for a participant and session type whose file exists is
    refused: the status says so, the session does not start, no control
    changes, and the file keeps its content.  A later start that passes
    the checks is the only way to "End session", so the file is not
    overwritten. *)
Theorem existing_file_is_kept (w : World Interface) (p s t : string) (old : list line) :
  text (gui w) "Participant##input" = p -> p <> "" ->
  text (gui w) "Session ID##input" = s ->
  (s = "Hyomental" /\ t = "hyomental" \/ s = "Tongue" /\ t = "tongue") ->
  fs w !! (p ++ "_" ++ t ++ ".csv") = Some old ->
  exists w', startSession_callback w = Done tt w'
    /\ inputCheck (iface w') = false
    /\ overall_status w' = "File already exists"
    /\ state_of w' = state_of w
    /\ enabled (gui w') = enabled (gui w)
    /\ multipliers (iface w') = multipliers (iface w)
    /\ rng w' = rng w
    /\ fs w' = fs w
    /\ fs w' !! (p ++ "_" ++ t ++ ".csv") = Some old.
Proof.
  intros Hp Hne Hs Ht Hold.
  destruct (startSession_refuses_existing_file w p s t old Hp Hne Hs Ht Hold)
    as (w' & Hrun & Hic & Hst & Hstate & Hen & Hm & Hfs & Hrng).
  exists w'. repeat split; try done. by rewrite Hfs.
Qed.

(** The form with the ID of a participant whose file exists. *)
Definition second_visit : World Interface :=
  final (type_text "Participant##input" "P1"
           (connected_form {[ "P1_hyomental.csv" := [[FText "kept"]] ]})).

Lemma existing_file_is_kept_witness :
  exists w', startSession_callback second_visit = Done tt w'
    /\ inputCheck (iface w') = false
    /\ overall_status w' = "File already exists"
    /\ state_of w' = state_of second_visit
    /\ enabled (gui w') = enabled (gui second_visit)
    /\ multipliers (iface w') = multipliers (iface second_visit)
    /\ rng w' = rng second_visit
    /\ fs w' = fs second_visit
    /\ fs w' !! ("P1" ++ "_" ++ "hyomental" ++ ".csv") = Some [[FText "kept"]].
Proof.
  apply (existing_file_is_kept second_visit "P1" "Hyomental" "hyomental" [[FText "kept"]]);
    [ vm_compute; reflexivity | discriminate | vm_compute; reflexivity
    | by left | vm_compute; reflexivity ].
Defined.

(** The form with the ID of a new participant. *)
Definition named_form : World Interface :=
  final (type_text "Participant##input" "P1" (connected_form ∅)).

(** ** The amplitude that reaches the device *)

(** The multipliers of [Interface.__init__] by canonical index: index [c]
    carries the multiplier [c mod N] of the table. *)
Theorem canonical_index_multiplier (base : list float) (reps c : nat) :
  (c < length base * reps)%nat ->
  multiplier_values (make_Interface base reps) !! c = base !! (c mod length base)%nat
  /\ NUM_MEASURES (make_Interface base reps) = (length base * reps)%nat
  /\ multipliers (make_Interface base reps) !! c = Some c
  /\ measures (make_Interface base reps) !! c = Some 0%float.
Proof.
  intros Hc. cbn. rewrite length_tile.
  split; [|split; [done|split; [by apply lookup_seq_lt|by apply lookup_replicate_2]]].
  unfold tile. revert c Hc. induction reps as [|r IH]; intros c Hc; [lia|].
  change (mjoin (replicate (S r) base)) with (base ++ mjoin (replicate r base))%list.
  destruct (decide (c < length base)%nat) as [Hlt|Hge].
  - by rewrite lookup_app_l, Nat.mod_small.
  - rewrite lookup_app_r by lia. rewrite IH by lia.
    f_equal. replace c with (c - length base + 1 * length base)%nat at 2 by lia.
    by rewrite Nat.Div0.mod_add.
Qed.

Lemma canonical_index_multiplier_witness :
  multiplier_values (make_Interface base_multipliers 3) !! 10%nat
  = base_multipliers !! (10 mod length base_multipliers)%nat
  /\ NUM_MEASURES (make_Interface base_multipliers 3) = (length base_multipliers * 3)%nat
  /\ multipliers (make_Interface base_multipliers 3) !! 10%nat = Some 10%nat
  /\ measures (make_Interface base_multipliers 3) !! 10%nat = Some 0%float.
Proof. apply (canonical_index_multiplier base_multipliers 3 10). cbn. lia. Defined.

(** The amplitudes [int(50 * multiplier)] for the multipliers of the code. *)
Lemma fifty_times_multiplier (k : nat) (mv : float) :
  base_multipliers !! k = Some mv ->
  int_of_float (float_of_Z 50 * mv) = 5 * (Z.of_nat k + 1).
Proof.
  intros Hk.
  do 9 (destruct k as [|k]; [injection Hk as <-; vm_compute; reflexivity|]).
  done.
Qed.

(** "Done calibration" loads the first trial at 50 mA times its
    multiplier, that is 5, 10, ..., 45 mA, whatever tolerance threshold
    the operator has entered, although the file will give the amplitude
    of the trial as the threshold times the multiplier. *)
Theorem calibration_loads_fifty_times_multiplier (w : World Interface)
    (threshold : Z) (c k : nat) (mv : float) :
  multipliers (iface w) !! amplitude_id (iface w) = Some c ->
  multiplier_values (iface w) !! c = Some mv ->
  base_multipliers !! k = Some mv ->
  device_up w = true ->
  exists w',
    done_calibration_callback
      (final (type_int "Tolerance threshold (mA)##input" threshold w)) = Done tt w'
    /\ dev_log w' = DSend "Wavelet" (5 * (Z.of_nat k + 1)) 10000 :: dev_log w
    /\ current_amplitude (iface w') = 5 * (Z.of_nat k + 1)
    /\ calibrated (iface w') = true
    /\ enabled (gui w') "Next" = true
    /\ enabled (gui w') "Done calibration" = false.
Proof.
  intros Hc Hmv Hk Hup.
  set (w1 := final (type_int "Tolerance threshold (mA)##input" threshold w)).
  assert (H1 : iface w1 = iface w /\ device_up w1 = device_up w /\ dev_log w1 = dev_log w).
  { unfold w1, type_int. by destruct (enabled _ _). }
  destruct H1 as (Hi & Hu & Hl).
  destruct (done_calibration_ok w1 c mv) as (w' & Hrun & _ & Hcal & _ & _ & Ha & Hlog & Hn & _ & Hd & _);
    [by rewrite Hi | by rewrite Hi | by rewrite Hu |].
  exists w'. rewrite (fifty_times_multiplier k mv Hk) in Ha, Hlog.
  rewrite Hl in Hlog. by repeat split.
Qed.

Lemma calibration_loads_fifty_times_multiplier_witness :
  exists w',
    done_calibration_callback
      (final (type_int "Tolerance threshold (mA)##input" 90
                (final (click "Load" send_waveform_callback
                          (final (click "Start session" startSession_callback
                                    named_form)))))) = Done tt w'
    /\ dev_log w'
       = DSend "Wavelet" (5 * (Z.of_nat 1 + 1)) 10000
         :: dev_log (final (click "Load" send_waveform_callback
                              (final (click "Start session" startSession_callback
                                        named_form))))
    /\ current_amplitude (iface w') = 5 * (Z.of_nat 1 + 1)
    /\ calibrated (iface w') = true
    /\ enabled (gui w') "Next" = true
    /\ enabled (gui w') "Done calibration" = false.
Proof.
  apply (calibration_loads_fifty_times_multiplier
           (final (click "Load" send_waveform_callback
                     (final (click "Start session" startSession_callback
                               named_form))))
           90 1 1 0.2%float);
    vm_compute; reflexivity.
Defined.

(** "Next" on a trial that is not the last stores the measurement under
    the canonical index of the trial and loads the following trial, again
    at 50 mA times its multiplier. *)
Theorem next_loads_fifty_times_multiplier (w : World Interface) (m : Z)
    (c c' k : nat) (mv : float) :
  enabled (gui w) "Measure (mm)##input" = true ->
  enabled (gui w) "Next" = true ->
  multipliers (iface w) !! amplitude_id (iface w) = Some c ->
  (c < length (measures (iface w)))%nat ->
  (S (amplitude_id (iface w)) < NUM_MEASURES (iface w))%nat ->
  multipliers (iface w) !! S (amplitude_id (iface w)) = Some c' ->
  multiplier_values (iface w) !! c' = Some mv ->
  base_multipliers !! k = Some mv ->
  device_up w = true ->
  calibrated (iface w) = true ->
  exists w',
    record m w = Done tt w'
    /\ measures (iface w') = <[c := float_of_Z m]> (measures (iface w))
    /\ amplitude_id (iface w') = S (amplitude_id (iface w))
    /\ text (gui w') "##NumMeasures" = pretty (S (amplitude_id (iface w)))
    /\ dev_log w' = DSend "Wavelet" (5 * (Z.of_nat k + 1)) 10000 :: dev_log w
    /\ current_amplitude (iface w') = 5 * (Z.of_nat k + 1)
    /\ int_in (gui w') "Tolerance threshold (mA)##input"
       = int_in (gui w) "Tolerance threshold (mA)##input"
    /\ fs w' = fs w.
Proof.
  intros Hin Hnext Hc Hlt Hmore Hc' Hmv Hk Hup Hcal.
  destruct (record_next w m c c' mv) as (w' & Hrun & Hkept & _ & Hms & Hid & Ha & Hlog & _);
    try done.
  exists w'. rewrite (fifty_times_multiplier k mv Hk) in Ha, Hlog.
  destruct Hkept as (Hfs & _ & _ & _ & _ & _ & _ & _ & _ & _ & _ & _ & Hthr & _).
  split; [done|]. split; [done|]. split; [done|]. split.
  { clear - Hrun Hin Hnext Hc Hlt Hmore Hc' Hmv Hup Hcal.
    destruct w as [i g f up lg out r]. cbn in *. subst up.
    revert Hrun. unfold record, type_int, click, add_measure_callback, store_measure,
      trial_amplitude, send_waveform.
    run. rewrite Hin. run. rewrite Hnext. run. rewrite Hc. run.
    rewrite bool_decide_eq_true_2 by done. run.
    rewrite bool_decide_eq_true_2 by done. run.
    rewrite Hc'. run. rewrite Hmv. run.
    rewrite Hcal. run. by intros [= <-]. }
  by repeat split.
Qed.

Lemma next_loads_fifty_times_multiplier_witness :
  exists w',
    record 11 (trials_open (fun _ => 0%nat)) = Done tt w'
    /\ measures (iface w')
       = <[1%nat := float_of_Z 11]> (measures (iface (trials_open (fun _ => 0%nat))))
    /\ amplitude_id (iface w') = S (amplitude_id (iface (trials_open (fun _ => 0%nat))))
    /\ text (gui w') "##NumMeasures"
       = pretty (S (amplitude_id (iface (trials_open (fun _ => 0%nat)))))
    /\ dev_log w'
       = DSend "Wavelet" (5 * (Z.of_nat 2 + 1)) 10000
         :: dev_log (trials_open (fun _ => 0%nat))
    /\ current_amplitude (iface w') = 5 * (Z.of_nat 2 + 1)
    /\ int_in (gui w') "Tolerance threshold (mA)##input"
       = int_in (gui (trials_open (fun _ => 0%nat))) "Tolerance threshold (mA)##input"
    /\ fs w' = fs (trials_open (fun _ => 0%nat)).
Proof.
  apply (next_loads_fifty_times_multiplier (trials_open (fun _ => 0%nat)) 11 1 2 2 0.3%float);
    vm_compute; first [reflexivity | lia].
Defined.

(** ** Timed stimulation *)

(** A timed stimulation of a duration that is not negative starts and
    stops the device, in that order, and gives the controls back: "Next"
    in a calibrated session, "Done calibration" before.  With a negative
    duration [time.sleep] raises after the device has been started: the
    callback never stops the stimulation, and "Load", "End session",
    "Next" and "Done calibration" stay disabled, with "Stop" the one
    control left. *)
Theorem timed_stimulation (w : World Interface) :
  device_up w = true ->
  (0 <= int_in (gui w) "Duration (s)##input" ->
   exists w',
     stimulate_callback w = Done tt w'
     /\ dev_log w' = DStop :: DStart :: dev_log w
     /\ stimulation_on w' = false
     /\ enabled (gui w') "Stop" = false
     /\ enabled (gui w') "Load" = true
     /\ enabled (gui w') "End session" = true
     /\ enabled (gui w') "Next" = calibrated (iface w)
     /\ enabled (gui w') "Done calibration" = negb (calibrated (iface w))
     /\ iface w' = iface w
     /\ fs w' = fs w)
  /\ (int_in (gui w) "Duration (s)##input" < 0 ->
      exists w',
        stimulate_callback w = Raised ValueError w'
        /\ dev_log w' = DStart :: dev_log w
        /\ stimulation_on w' = true
        /\ enabled (gui w') "Stop" = true
        /\ enabled (gui w') "Start" = false
        /\ enabled (gui w') "Stimulate" = false
        /\ enabled (gui w') "Load" = false
        /\ enabled (gui w') "End session" = false
        /\ enabled (gui w') "Next" = false
        /\ enabled (gui w') "Done calibration" = false
        /\ iface w' = iface w
        /\ fs w' = fs w).
Proof.
  intros Hup. destruct w as [i g f up lg out r]. cbn in *. subst up. split; intros Hdur.
  - unfold stimulate_callback, start_stimulation, stop_stimulation,
      start_stimulation_status, stop_stimulation_status. run.
    rewrite (proj2 (Z.ltb_ge _ _) Hdur). run.
    destruct (calibrated i); run; (eexists; split; [reflexivity|]); by repeat split.
  - unfold stimulate_callback, start_stimulation, stop_stimulation,
      start_stimulation_status, stop_stimulation_status. run.
    rewrite (proj2 (Z.ltb_lt _ _) Hdur). run.
    eexists; split; [reflexivity|]. by repeat split.
Qed.

Lemma timed_stimulation_witness :
  (0 <= int_in (gui (trials_open (fun _ => 0%nat))) "Duration (s)##input" ->
   exists w',
     stimulate_callback (trials_open (fun _ => 0%nat)) = Done tt w'
     /\ dev_log w' = DStop :: DStart :: dev_log (trials_open (fun _ => 0%nat))
     /\ stimulation_on w' = false
     /\ enabled (gui w') "Stop" = false
     /\ enabled (gui w') "Load" = true
     /\ enabled (gui w') "End session" = true
     /\ enabled (gui w') "Next" = calibrated (iface (trials_open (fun _ => 0%nat)))
     /\ enabled (gui w') "Done calibration"
        = negb (calibrated (iface (trials_open (fun _ => 0%nat))))
     /\ iface w' = iface (trials_open (fun _ => 0%nat))
     /\ fs w' = fs (trials_open (fun _ => 0%nat)))
  /\ (int_in (gui (trials_open (fun _ => 0%nat))) "Duration (s)##input" < 0 ->
      exists w',
        stimulate_callback (trials_open (fun _ => 0%nat)) = Raised ValueError w'
        /\ dev_log w' = DStart :: dev_log (trials_open (fun _ => 0%nat))
        /\ stimulation_on w' = true
        /\ enabled (gui w') "Stop" = true
        /\ enabled (gui w') "Start" = false
        /\ enabled (gui w') "Stimulate" = false
        /\ enabled (gui w') "Load" = false
        /\ enabled (gui w') "End session" = false
        /\ enabled (gui w') "Next" = false
        /\ enabled (gui w') "Done calibration" = false
        /\ iface w' = iface (trials_open (fun _ => 0%nat))
        /\ fs w' = fs (trials_open (fun _ => 0%nat))).
Proof.
  apply (timed_stimulation (trials_open (fun _ => 0%nat))). vm_compute. reflexivity.
Defined.

End HypoglossalMore.
